(** * trivial-todo-app: Todo entity, JSON storage, TodoManager and CLI

    Shallow embedding of [src/trivial_todo_app/storage.py],
    [src/trivial_todo_app/todo.py] and the commands of
    [src/trivial_todo_app/cli.py], together with the parts of CPython's
    [json] module (C accelerator: [c_make_encoder] with [ensure_ascii=True],
    [scanstring_unicode], [scan_once_unicode], [_match_number_unicode]) and
    of [int]/[str] that these functions call.

    A Python [str] is a list of code points (each in [0, 0x10FFFF],
    surrogates included, as CPython allows).  Python exceptions are the
    [Err] branch of the result type [res]. *)

From Stdlib Require Import ZArith List Bool Lia.
From Stdlib Require Import Strings.String Strings.Ascii.
Set Warnings "-register-all".

Import ListNotations.
Open Scope Z_scope.
Open Scope list_scope.

(** ** Python values used by the code *)

Definition pystr := list Z.

(** Code point of a Rocq ASCII literal, used to write Python literals. *)
Fixpoint py_of_string (s : String.string) : pystr :=
  match s with
  | String.EmptyString => []
  | String.String a r => Z.of_nat (Ascii.nat_of_ascii a) :: py_of_string r
  end.

(** The exceptions raised along the modelled paths. *)
Inductive exn :=
  | JSONDecodeError                (* json.JSONDecodeError *)
  | IntMaxStrDigits                (* ValueError: Exceeds the limit (4300 digits) for integer string conversion *)
  | TypeError                      (* e.g. 'int' object is not subscriptable / not iterable *)
  | KeyError                       (* item["id"] on a dict without that key *)
  | IllTypedTodo                   (* Todo(...) built from JSON values that are not int/str/bool:
                                      Python builds it anyway; the typed model stops there *)
  | OSError                        (* I/O failure in mkstemp / write_text / replace *)
  | UnicodeEncodeError             (* a str the stdout encoding cannot encode (a ValueError) *)
  | ValueError (msg : pystr).      (* ValueError raised by TodoManager *)

Inductive res (A : Type) : Type :=
  | Ok (a : A)
  | Err (e : exn).
Arguments Ok {A} a.
Arguments Err {A} e.

Definition bind {A B : Type} (m : res A) (k : A -> res B) : res B :=
  match m with
  | Ok a => k a
  | Err e => Err e
  end.

Notation "x <- m ;; k" := (bind m (fun x => k))
  (at level 61, m at next level, right associativity).

(** Prepend a decoded code point to the result of a string scan. *)
Definition res_cons (c : Z) (m : res (pystr * pystr)) : res (pystr * pystr) :=
  match m with
  | Ok (l, r) => Ok (c :: l, r)
  | Err e => Err e
  end.

(** ** [int] <-> decimal text, with CPython's 4300-digit limit
    ([sys.get_int_max_str_digits()] default). *)

Definition int_max_str_digits : Z := 4300.

(** Decimal digits (as code points) of [n >= 0], most significant first,
    prepended to [acc]; [fuel] bounds the number of divisions. *)
Fixpoint digits_aux (fuel : nat) (n : Z) (acc : pystr) : pystr :=
  let acc' := (48 + n mod 10) :: acc in
  match fuel with
  | O => acc'
  | S f => if n <? 10 then acc' else digits_aux f (n / 10) acc'
  end.

Definition nat_digits (n : Z) : pystr :=
  digits_aux (Z.to_nat (Z.log2 n)) n [].

(** Decimal text of an [int], sign included. *)
Definition int_text (z : Z) : pystr :=
  if z <? 0 then 45 :: nat_digits (Z.abs z) else nat_digits (Z.abs z).

(** Number of decimal digits of an [int], sign excluded. *)
Definition digit_count (z : Z) : Z := Z.of_nat (List.length (nat_digits (Z.abs z))).

(** [int.__repr__] / [str(int)] / [format(int, '')]: raises past the limit. *)
Definition int_repr (z : Z) : res pystr :=
  if int_max_str_digits <? digit_count z then Err IntMaxStrDigits
  else Ok (int_text z).

Definition is_digit (c : Z) : bool := (48 <=? c) && (c <=? 57).

(** Value of a run of ASCII digits. *)
Definition digits_value (ds : pystr) : Z :=
  fold_left (fun v d => 10 * v + (d - 48)) ds 0.

(** ** Encoder: [json.dumps] with the default arguments *)

(** [Py_hexdigits]: lower-case hexadecimal digit. *)
Definition hexdig (n : Z) : Z := if n <? 10 then 48 + n else 87 + n.

(** [\uXXXX] for a 16-bit value. *)
Definition u_escape (c : Z) : pystr :=
  [92; 117;
   hexdig (Z.land (Z.shiftr c 12) 15); hexdig (Z.land (Z.shiftr c 8) 15);
   hexdig (Z.land (Z.shiftr c 4) 15); hexdig (Z.land c 15)].

(** [Py_UNICODE_HIGH_SURROGATE] / [Py_UNICODE_LOW_SURROGATE]. *)
Definition high_surrogate (c : Z) : Z := 0xD800 - Z.shiftr 0x10000 10 + Z.shiftr c 10.
Definition low_surrogate (c : Z) : Z := 0xDC00 + Z.land c 0x3FF.

(** [ascii_escape_unichar]. *)
Definition ascii_escape_unichar (c : Z) : pystr :=
  if c =? 92 then [92; 92]
  else if c =? 34 then [92; 34]
  else if c =? 8 then [92; 98]
  else if c =? 12 then [92; 102]
  else if c =? 10 then [92; 110]
  else if c =? 13 then [92; 114]
  else if c =? 9 then [92; 116]
  else if 0x10000 <=? c then u_escape (high_surrogate c) ++ u_escape (low_surrogate c)
  else u_escape c.

(** [S_CHAR]: printable ASCII other than backslash and double quote. *)
Definition S_CHAR (c : Z) : bool := (32 <=? c) && (c <=? 126) && negb (c =? 92) && negb (c =? 34).

Definition enc_char (c : Z) : pystr := if S_CHAR c then [c] else ascii_escape_unichar c.

Definition enc_chars (s : pystr) : pystr := flat_map enc_char s.

(** [ascii_escape_unicode]: the quoted, escaped string. *)
Definition encode_basestring_ascii (s : pystr) : pystr := 34 :: enc_chars s ++ [34].

(** JSON values as [json.loads] builds them.  A float keeps its literal
    text (its value plays no role here); an object keeps its key/value pairs
    in text order, and [dict] lookup takes the last pair with the key. *)
Inductive jval :=
  | JNull
  | JBool (b : bool)
  | JInt (z : Z)
  | JFloat (lit : pystr)
  | JStr (s : pystr)
  | JArr (l : list jval)
  | JObj (kv : list (pystr * jval)).

(** [item_separator = ', '], [key_separator = ': ']. *)
Definition item_sep : pystr := [44; 32].
Definition key_sep : pystr := [58; 32].

(** [encoder_listencode_obj]: [None], [True], [False], [int] ([int.__repr__]),
    [str], [list], [dict].  Floats never reach the encoder from [save];
    their literal text is written back. *)
Fixpoint encode (v : jval) : res pystr :=
  match v with
  | JNull => Ok (py_of_string "null"%string)
  | JBool true => Ok (py_of_string "true"%string)
  | JBool false => Ok (py_of_string "false"%string)
  | JInt z => int_repr z
  | JFloat lit => Ok lit
  | JStr s => Ok (encode_basestring_ascii s)
  | JArr l =>
      let fix enc_list (first : bool) (l : list jval) : res pystr :=
        match l with
        | [] => Ok []
        | x :: r =>
            ex <- encode x ;;
            rest <- enc_list false r ;;
            Ok ((if first then [] else item_sep) ++ ex ++ rest)
        end in
      body <- enc_list true l ;;
      Ok ([91] ++ body ++ [93])
  | JObj kv =>
      let fix enc_dict (first : bool) (kv : list (pystr * jval)) : res pystr :=
        match kv with
        | [] => Ok []
        | (k, x) :: r =>
            ex <- encode x ;;
            rest <- enc_dict false r ;;
            Ok ((if first then [] else item_sep)
                  ++ encode_basestring_ascii k ++ key_sep ++ ex ++ rest)
        end in
      body <- enc_dict true kv ;;
      Ok ([123] ++ body ++ [125])
  end.

Definition dumps (v : jval) : res pystr := encode v.

(** ** Decoder: [json.loads] *)

Definition is_ws (c : Z) : bool := (c =? 32) || (c =? 9) || (c =? 10) || (c =? 13).

Fixpoint skip_ws (s : pystr) : pystr :=
  match s with
  | c :: r => if is_ws c then skip_ws r else s
  | [] => []
  end.

Definition is_hex (c : Z) : bool :=
  is_digit c || ((65 <=? c) && (c <=? 70)) || ((97 <=? c) && (c <=? 102)).

Definition hex_val (c : Z) : Z :=
  if c <=? 57 then c - 48 else if c <=? 70 then c - 55 else c - 87.

Definition hex4 (a b c d : Z) : option Z :=
  if is_hex a && is_hex b && is_hex c && is_hex d
  then Some (4096 * hex_val a + 256 * hex_val b + 16 * hex_val c + hex_val d)
  else None.

Definition is_high (c : Z) : bool := (0xD800 <=? c) && (c <=? 0xDBFF).
Definition is_low (c : Z) : bool := (0xDC00 <=? c) && (c <=? 0xDFFF).

(** [Py_UNICODE_JOIN_SURROGATES]. *)
Definition join_surrogates (h l : Z) : Z :=
  0x10000 + Z.lor (Z.shiftl (Z.land h 0x3FF) 10) (Z.land l 0x3FF).

(** Single-character escapes of [scanstring_unicode]. *)
Definition unescape_simple (e : Z) : option Z :=
  if e =? 34 then Some 34 else if e =? 92 then Some 92 else if e =? 47 then Some 47
  else if e =? 98 then Some 8 else if e =? 102 then Some 12
  else if e =? 110 then Some 10 else if e =? 114 then Some 13
  else if e =? 116 then Some 9 else None.

(** [scanstring_unicode] with [strict=True], started just after the opening
    quote: the decoded string and the text after the closing quote.  A high
    surrogate escape followed by a low surrogate escape is joined. *)
Fixpoint scanstring (s : pystr) : res (pystr * pystr) :=
  match s with
  | [] => Err JSONDecodeError
  | c :: r =>
      if c =? 34 then Ok ([], r)
      else if c =? 92 then
        match r with
        | [] => Err JSONDecodeError
        | e :: r1 =>
            if e =? 117 then
              match r1 with
              | d1 :: d2 :: d3 :: d4 :: r2 =>
                  match hex4 d1 d2 d3 d4 with
                  | None => Err JSONDecodeError
                  | Some u =>
                      if is_high u then
                        match r2 with
                        | b :: v :: e1 :: e2 :: e3 :: e4 :: r3 =>
                            if (b =? 92) && (v =? 117) then
                              match hex4 e1 e2 e3 e4 with
                              | None => Err JSONDecodeError
                              | Some u2 =>
                                  if is_low u2
                                  then res_cons (join_surrogates u u2) (scanstring r3)
                                  else res_cons u (scanstring r2)
                              end
                            else res_cons u (scanstring r2)
                        | _ => res_cons u (scanstring r2)
                        end
                      else res_cons u (scanstring r2)
                  end
              | _ => Err JSONDecodeError
              end
            else
              match unescape_simple e with
              | Some ch => res_cons ch (scanstring r1)
              | None => Err JSONDecodeError
              end
        end
      else if c <=? 31 then Err JSONDecodeError
      else res_cons c (scanstring r)
  end.

Notation "' p <- m ;; k" := (bind m (fun p => k))
  (at level 61, p pattern, m at next level, right associativity).

Fixpoint span_digits (s : pystr) : pystr * pystr :=
  match s with
  | c :: r => if is_digit c then let (ds, t) := span_digits r in (c :: ds, t) else ([], s)
  | [] => ([], [])
  end.

(** [_match_number_unicode]: an [int] (through [PyLong_FromString], with
    the digit limit) or a [float]; [Err JSONDecodeError] stands for the
    [StopIteration] that [raw_decode] turns into "Expecting value". *)
Definition match_number (s : pystr) : res (jval * pystr) :=
  let '(neg, s1) :=
    match s with
    | c :: r => if c =? 45 then (true, r) else (false, s)
    | [] => (false, s)
    end in
  let int_part :=
    match s1 with
    | c :: r =>
        if (49 <=? c) && (c <=? 57) then let (ds, t) := span_digits r in Some (c :: ds, t)
        else if c =? 48 then Some ([48], r)
        else None
    | [] => None
    end in
  match int_part with
  | None => Err JSONDecodeError
  | Some (ids, t) =>
      let '(frac, t1) :=
        match t with
        | p :: d :: t' =>
            if (p =? 46) && is_digit d
            then let (ds, t'') := span_digits t' in (46 :: d :: ds, t'')
            else ([], t)
        | _ => ([], t)
        end in
      let '(expo, t2) :=
        match t1 with
        | e :: t' =>
            if (e =? 101) || (e =? 69) then
              let '(sg, t'') :=
                match t' with
                | x :: y => if (x =? 45) || (x =? 43) then ([x], y) else ([], t')
                | [] => ([], t')
                end in
              match span_digits t'' with
              | ([], _) => ([], t1)
              | (ds, t3) => (e :: sg ++ ds, t3)
              end
            else ([], t1)
        | [] => ([], t1)
        end in
      match frac ++ expo with
      | [] =>
          if int_max_str_digits <? Z.of_nat (List.length ids) then Err IntMaxStrDigits
          else Ok (JInt (if neg then - digits_value ids else digits_value ids), t2)
      | _ => Ok (JFloat ((if neg then [45] else []) ++ ids ++ frac ++ expo), t2)
      end
  end.

Fixpoint strip_prefix (p s : pystr) : option pystr :=
  match p, s with
  | [], _ => Some s
  | x :: p', y :: s' => if x =? y then strip_prefix p' s' else None
  | _ :: _, [] => None
  end.

(** The named constants of [scan_once_unicode]: [null], [true], [false],
    [NaN], [Infinity], [-Infinity]. *)
Definition literal (s : pystr) : option (jval * pystr) :=
  let try_lit (lit : String.string) (v : jval) (k : option (jval * pystr)) :=
    match strip_prefix (py_of_string lit) s with
    | Some t => Some (v, t)
    | None => k
    end in
  try_lit "null"%string JNull
    (try_lit "true"%string (JBool true)
      (try_lit "false"%string (JBool false)
        (try_lit "NaN"%string (JFloat (py_of_string "NaN"%string))
          (try_lit "Infinity"%string (JFloat (py_of_string "Infinity"%string))
            (try_lit "-Infinity"%string (JFloat (py_of_string "-Infinity"%string)) None))))).

(** [scan_once_unicode], [_parse_array_unicode], [_parse_object_unicode].
    [fuel] stands for the call depth; [loads] gives [3 * len + 1], which
    every chain of calls stays under (each [scan_once] consumes a
    character, and at most two calls sit between two [scan_once]). *)
Fixpoint scan_once (fuel : nat) (s : pystr) {struct fuel} : res (jval * pystr) :=
  match fuel with
  | O => Err JSONDecodeError
  | S f =>
      match s with
      | [] => Err JSONDecodeError
      | c :: r =>
          if c =? 34 then '(str, t) <- scanstring r ;; Ok (JStr str, t)
          else if c =? 123 then parse_object f r
          else if c =? 91 then parse_array f r
          else match literal s with
               | Some vt => Ok vt
               | None => match_number s
               end
      end
  end
with parse_array (fuel : nat) (s : pystr) {struct fuel} : res (jval * pystr) :=
  match fuel with
  | O => Err JSONDecodeError
  | S f =>
      match skip_ws s with
      | [] => Err JSONDecodeError
      | (c :: r) as s1 =>
          if c =? 93 then Ok (JArr [], r)
          else '(vs, t) <- array_items f s1 ;; Ok (JArr vs, t)
      end
  end
with array_items (fuel : nat) (s : pystr) {struct fuel} : res (list jval * pystr) :=
  match fuel with
  | O => Err JSONDecodeError
  | S f =>
      '(v, t) <- scan_once f s ;;
      match skip_ws t with
      | [] => Err JSONDecodeError
      | c :: r =>
          if c =? 93 then Ok ([v], r)
          else if c =? 44 then '(vs, t') <- array_items f (skip_ws r) ;; Ok (v :: vs, t')
          else Err JSONDecodeError
      end
  end
with parse_object (fuel : nat) (s : pystr) {struct fuel} : res (jval * pystr) :=
  match fuel with
  | O => Err JSONDecodeError
  | S f =>
      match skip_ws s with
      | [] => Err JSONDecodeError
      | (c :: r) as s1 =>
          if c =? 125 then Ok (JObj [], r)
          else '(kvs, t) <- object_items f s1 ;; Ok (JObj kvs, t)
      end
  end
with object_items (fuel : nat) (s : pystr) {struct fuel} : res (list (pystr * jval) * pystr) :=
  match fuel with
  | O => Err JSONDecodeError
  | S f =>
      match s with
      | c :: r =>
          if c =? 34 then
            '(k, t) <- scanstring r ;;
            match skip_ws t with
            | d :: t' =>
                if d =? 58 then
                  '(v, u) <- scan_once f (skip_ws t') ;;
                  match skip_ws u with
                  | e :: u' =>
                      if e =? 125 then Ok ([(k, v)], u')
                      else if e =? 44 then
                        '(kvs, u'') <- object_items f (skip_ws u') ;; Ok ((k, v) :: kvs, u'')
                      else Err JSONDecodeError
                  | [] => Err JSONDecodeError
                  end
                else Err JSONDecodeError
            | [] => Err JSONDecodeError
            end
          else Err JSONDecodeError
      | [] => Err JSONDecodeError
      end
  end.

(** [json.loads] on a [str]: refuses a leading BOM, skips whitespace,
    scans one value, skips whitespace, and refuses extra data.
    Not modelled: the C scanner enters [Py_EnterRecursiveCall] at each
    [[] and [{] and raises [RecursionError] when the nesting exceeds what
    is left of the interpreter's recursion limit (a bound that depends on
    the Python version and on the call stack).  The model is the scanner
    for texts nested less deeply than that bound; the text [save] writes
    is nested two levels deep. *)
Definition loads (s : pystr) : res jval :=
  _ <- match s with
  | c :: _ => if c =? 0xFEFF then Err JSONDecodeError else Ok tt
  | [] => Ok tt
  end ;;
  let s1 := skip_ws s in
  '(v, t) <- scan_once (S (3 * List.length s1)) s1 ;;
  match skip_ws t with
  | [] => Ok v
  | _ => Err JSONDecodeError
  end.

(** ** [todo.py]: the [Todo] dataclass *)

Record Todo := mkTodo { id : Z; title : pystr; done : bool }.

(** ** [storage.py]: [TodoStorage] *)

(** [dict.__getitem__] on a parsed object: the last pair with the key. *)
Fixpoint dict_get (k : pystr) (kv : list (pystr * jval)) : option jval :=
  match kv with
  | [] => None
  | (k', v) :: r =>
      match dict_get k r with
      | Some w => Some w
      | None => if list_eq_dec Z.eq_dec k k' then Some v else None
      end
  end.

(** [item[key]] for a string key. *)
Definition subscript (item : jval) (key : pystr) : res jval :=
  match item with
  | JObj kv => match dict_get key kv with Some v => Ok v | None => Err KeyError end
  | _ => Err TypeError
  end.

(** [Todo(id=item["id"], title=item["title"], done=item["done"])]. *)
Definition todo_of_item (item : jval) : res Todo :=
  i <- subscript item (py_of_string "id") ;;
  t <- subscript item (py_of_string "title") ;;
  d <- subscript item (py_of_string "done") ;;
  match i, t, d with
  | JInt i, JStr t, JBool d => Ok (mkTodo i t d)
  | _, _, _ => Err IllTypedTodo
  end.

Fixpoint todos_of_items (l : list jval) : res (list Todo) :=
  match l with
  | [] => Ok []
  | x :: r => t <- todo_of_item x ;; ts <- todos_of_items r ;; Ok (t :: ts)
  end.

(** [[... for item in data]]: iterating a list yields its elements, a dict
    its keys and a str its characters (both then fail on [item["id"]]);
    other values are not iterable. *)
Definition todos_of_data (data : jval) : res (list Todo) :=
  match data with
  | JArr l => todos_of_items l
  | JObj [] => Ok []
  | JStr [] => Ok []
  | _ => Err TypeError
  end.

(** [TodoStorage.load]; [stored] is the text [read_text()] returns for
    [storage_path], [None] when the file does not exist.  The failures of
    [read_text] itself ([OSError], or [UnicodeDecodeError] on bytes the
    locale encoding does not decode) are not modelled. *)
Definition load (stored : option pystr) : res (list Todo) :=
  match stored with
  | None => Ok []
  | Some text =>
      match loads text with
      | Err JSONDecodeError => Ok []
      | Err e => Err e
      | Ok data => todos_of_data data
      end
  end.

(** [{"id": t.id, "title": t.title, "done": t.done}]. *)
Definition todo_to_json (t : Todo) : jval :=
  JObj [(py_of_string "id", JInt (id t));
        (py_of_string "title", JStr (title t));
        (py_of_string "done", JBool (done t))].

(** The storage directory: the target file, the temporary files
    [.tmp_todos_<k>.json] created there by [mkstemp], the descriptors
    [mkstemp] returned that are still open, and the next temp name. *)
Record fs := mkFS {
  store : option pystr;
  temps : list (Z * pystr);
  open_fds : list Z;
  next_tmp : Z
}.

(** Outcome of each system call [save] makes. *)
Record io := mkIO { mkstemp_ok : bool; write_ok : bool; replace_ok : bool }.

Definition io_ok : io := mkIO true true true.

Fixpoint remove_temp (k : Z) (l : list (Z * pystr)) : list (Z * pystr) :=
  match l with
  | [] => []
  | (k', c) :: r => if k' =? k then remove_temp k r else (k', c) :: remove_temp k r
  end.

(** [os.close(fd)]. *)
Definition close_fd (k : Z) (st : fs) : fs :=
  mkFS (store st) (temps st) (remove Z.eq_dec k (open_fds st)) (next_tmp st).

(** [TodoStorage.save]. *)
Definition save (o : io) (todos : list Todo) (st : fs) : res unit * fs :=
  match dumps (JArr (map todo_to_json todos)) with
  | Err e => (Err e, st)
  | Ok json_data =>
      if negb (mkstemp_ok o) then (Err OSError, st) else
      (* fd, temp_path = tempfile.mkstemp(dir=..., prefix=".tmp_todos_", suffix=".json") *)
      let k := next_tmp st in
      let st1 := mkFS (store st) ((k, []) :: temps st) (k :: open_fds st) (k + 1) in
      (* try: Path(temp_path).write_text(json_data) *)
      let '(r, st2) :=
        if negb (write_ok o) then (Err OSError, st1) else
        let st1' := mkFS (store st1) ((k, json_data) :: temps st) (open_fds st1) (next_tmp st1) in
        (* Path(temp_path).replace(self.storage_path) *)
        if negb (replace_ok o) then (Err OSError, st1')
        else (Ok tt, mkFS (Some json_data) (remove_temp k (temps st1')) (open_fds st1') (next_tmp st1'))
      in
      (* finally: os.close(fd) *)
      (r, close_fd k st2)
  end.

(** ** [todo.py]: [TodoManager] *)

(** [str.isspace] ([Py_UNICODE_ISSPACE]). *)
Definition py_isspace (c : Z) : bool :=
  ((9 <=? c) && (c <=? 13)) || ((28 <=? c) && (c <=? 32)) || (c =? 0x85) || (c =? 0xA0)
  || (c =? 0x1680) || ((0x2000 <=? c) && (c <=? 0x200A)) || (c =? 0x2028) || (c =? 0x2029)
  || (c =? 0x202F) || (c =? 0x205F) || (c =? 0x3000).

Fixpoint lstrip (s : pystr) : pystr :=
  match s with
  | c :: r => if py_isspace c then lstrip r else s
  | [] => []
  end.

(** [str.strip()]. *)
Definition strip (s : pystr) : pystr := rev (lstrip (rev (lstrip s))).

(** [max(todo.id for todo in todos)] on a non-empty list. *)
Definition max_id (todos : list Todo) : Z :=
  match todos with
  | [] => 0
  | t :: r => fold_left (fun m u => Z.max m (id u)) r (id t)
  end.

(** [max(todo.id for todo in todos) + 1 if todos else 1]. *)
Definition next_id (todos : list Todo) : Z :=
  match todos with
  | [] => 1
  | _ => max_id todos + 1
  end.

Definition msg_title_empty : pystr := py_of_string "Title cannot be empty".

(** [f"Todo #{todo_id} not found"] / [f"Todo #{todo_id} is already done"]:
    formatting the id goes through [int.__format__], which has the digit
    limit. *)
Definition fmt_todo_msg (todo_id : Z) (suffix : String.string) : res pystr :=
  digits <- int_repr todo_id ;;
  Ok (py_of_string "Todo #" ++ digits ++ py_of_string suffix).

Definition raise_todo_msg {A : Type} (todo_id : Z) (suffix : String.string) : res A :=
  msg <- fmt_todo_msg todo_id suffix ;; Err (ValueError msg).

(** [TodoManager.add]. *)
Definition add (o : io) (title_ : pystr) (st : fs) : res Todo * fs :=
  match strip title_ with
  | [] => (Err (ValueError msg_title_empty), st)
  | _ =>
      match load (store st) with
      | Err e => (Err e, st)
      | Ok todos =>
          let new_todo := mkTodo (next_id todos) title_ false in
          let '(r, st') := save o (todos ++ [new_todo]) st in
          (_ <- r ;; Ok new_todo, st')
      end
  end.

(** [TodoManager.list_all]. *)
Definition list_all (st : fs) : res (list Todo) * fs := (load (store st), st).

(** [todo.done = True] on the first todo of the list with the id: the
    object found by the scan is the one held in [todos]. *)
Fixpoint mark_first (todo_id : Z) (todos : list Todo) : list Todo :=
  match todos with
  | [] => []
  | t :: r =>
      if id t =? todo_id then mkTodo (id t) (title t) true :: r
      else t :: mark_first todo_id r
  end.

(** [TodoManager.mark_done]. *)
Definition mark_done (o : io) (todo_id : Z) (st : fs) : res unit * fs :=
  match load (store st) with
  | Err e => (Err e, st)
  | Ok todos =>
      match find (fun t => id t =? todo_id) todos with
      | None => (raise_todo_msg todo_id " not found", st)
      | Some t =>
          if done t then (raise_todo_msg todo_id " is already done", st)
          else save o (mark_first todo_id todos) st
      end
  end.

(** The empty directory: no store file, no temp file, no open descriptor. *)
Definition fs_empty : fs := mkFS None [] [] 0.

(** ** [cli.py]: the commands *)

Inductive stream := Stdout | Stderr.

(** What a command does at the terminal: the strings it passes to
    [typer.echo], in order, each with its stream ([err=True] is
    [Stderr]), and its exit status ([sys.exit(1)] or a normal return). *)
Record cli_out := mkOut { lines : list (stream * pystr); exit_code : Z }.

(** [isinstance(e, ValueError)]: [json.JSONDecodeError], the [ValueError]
    of the int digit limit and [UnicodeEncodeError] are [ValueError]s;
    [TypeError], [KeyError] and [OSError] are not. *)
Definition is_value_error (e : exn) : bool :=
  match e with
  | JSONDecodeError | IntMaxStrDigits | UnicodeEncodeError | ValueError _ => true
  | _ => false
  end.

(** The text encoding of the stream [typer.echo] (click's [echo]) writes
    to stdout, as the code points it can encode.  In a UTF-8 locale
    ([errors='strict']) that is every code point but the surrogates
    U+D800..U+DFFF; in the C locale ([surrogateescape]) U+DC80..U+DCFF
    too; click replaces a stream configured as ASCII by a UTF-8 one with
    [errors='replace'], which encodes everything.  Every such encoding
    encodes ASCII. *)
Record codec := mkCodec {
  encodable : Z -> bool;
  encodable_ascii : forall c, 0 <= c < 128 -> encodable c = true }.

Section Cli.

(** [str(e)] of the exceptions whose message the model does not spell out. *)
Variable exn_str : exn -> pystr.

(** The encoding of stdout. *)
Variable out_codec : codec.

(** [typer.echo(s)] to stdout: the [TextIOWrapper] encodes [s + "\n"] as a
    whole before writing any of it, so a code point its encoding cannot
    encode raises [UnicodeEncodeError] and nothing is written.  With
    [err=True] the text goes to stderr, whose [backslashreplace] error
    handler never raises: those echoes always succeed.  Failures of the
    stream itself (a closed pipe) are not modelled. *)
Definition echo_out (s : pystr) : res unit :=
  if forallb (encodable out_codec) (s ++ [10]) then Ok tt else Err UnicodeEncodeError.

Definition str_exn (e : exn) : pystr :=
  match e with
  | ValueError msg => msg
  | _ => exn_str e
  end.

(** The two [except] clauses of [add] and [done]; [None]: the code went on
    with an ill-typed [Todo], which the model does not follow. *)
Definition save_handler (e : exn) : option cli_out :=
  match e with
  | IllTypedTodo => None
  | _ =>
      if is_value_error e then Some (mkOut [(Stderr, py_of_string "Error: " ++ str_exn e)] 1)
      else Some (mkOut [(Stderr, py_of_string "Error: Failed to save todo: " ++ str_exn e)] 1)
  end.






(** [done] from [manager.mark_done(todo_id)] on. *)
Definition cli_done_mark (o : io) (todo_id : Z) (st : fs) : option cli_out * fs :=
  let '(r, st1) := mark_done o todo_id st in
  match r with
  | Err e => (save_handler e, st1)
  | Ok _ =>
      match fst (list_all st1) with
      | Err e => (save_handler e, st1)
      | Ok todos =>
          match find (fun t => id t =? todo_id) todos with
          | Some t =>
              (match int_repr todo_id with
               | Ok ds =>
                   let msg := py_of_string "Marked todo #" ++ ds ++ py_of_string " as done: "
                                ++ [34] ++ title t ++ [34] in
                   match echo_out msg with
                   | Ok _ => Some (mkOut [(Stdout, msg)] 0)
                   | Err e => save_handler e
                   end
               | Err e => save_handler e
               end, st1)
          | None => (Some (mkOut [] 0), st1)
          end
      end
  end.

(** The [done] command. *)
Definition cli_done (o : io) (todo_id : Z) (st : fs) : option cli_out * fs :=
  match fst (list_all st) with
  | Err e => (save_handler e, st)
  | Ok todos =>
      match find (fun t => id t =? todo_id) todos with
      | Some t =>
          if done t then
            (match fmt_todo_msg todo_id " is already done" with
             | Ok msg =>
                 match echo_out msg with
                 | Ok _ => Some (mkOut [(Stdout, msg)] 0)
                 | Err e => save_handler e
                 end
             | Err e => save_handler e
             end, st)
          else cli_done_mark o todo_id st
      | None => cli_done_mark o todo_id st
      end
  end.

End Cli.

(** ** Scenarios of the specification, evaluated *)

(** JSON text written with ['] in place of the double quote. *)
Definition json_text (s : String.string) : pystr :=
  map (fun c => if c =? 39 then 34 else c) (py_of_string s).

Example add_first_todo :
  add io_ok (py_of_string "Buy groceries") fs_empty =
  (Ok (mkTodo 1 (py_of_string "Buy groceries") false),
   mkFS (Some (json_text "[{'id': 1, 'title': 'Buy groceries', 'done': false}]")) [] [] 1).
Proof. vm_compute. reflexivity. Qed.

Example mark_done_twice :
  let st1 := snd (add io_ok (py_of_string "Buy groceries") fs_empty) in
  let '(r2, st2) := mark_done io_ok 1 st1 in
  let '(r3, st3) := mark_done io_ok 1 st2 in
  r2 = Ok tt /\ load (store st2) = Ok [mkTodo 1 (py_of_string "Buy groceries") true]
  /\ r3 = Err (ValueError (py_of_string "Todo #1 is already done")) /\ st3 = st2.
Proof. vm_compute. repeat split; reflexivity. Qed.

Example mark_done_missing :
  fst (mark_done io_ok 999 fs_empty) = Err (ValueError (py_of_string "Todo #999 not found")).
Proof. vm_compute. reflexivity. Qed.

Example load_samples :
  load (Some []) = Ok [] /\ load (Some (py_of_string "not valid json")) = Ok []
  /\ load (Some (py_of_string "5")) = Err TypeError
  /\ load (Some (py_of_string "{}")) = Ok []
  /\ load (Some (py_of_string "[1, 2]")) = Err TypeError
  /\ load (Some (json_text " [ {'done' : true , 'title':'a\u00e9\ud83d\ude00' ,'id':-0} ] ")) =
     Ok [mkTodo 0 [97; 233; 128512] true]
  /\ load (Some (json_text "[1.5e3, 'x']")) = Err TypeError
  /\ load (Some (json_text "[{'id': 1.0, 'title': 'x', 'done': false}]")) = Err IllTypedTodo
  /\ load (Some (json_text "[{'id': 1, 'title': 'x'}]")) = Err KeyError
  /\ load (Some (json_text "[{'id': 1, 'title': 'x', 'done': false},]")) = Ok []
  /\ load (Some (json_text "[{'id': 01, 'title': 'x', 'done': false}]")) = Ok [].
Proof. vm_compute. repeat split; reflexivity. Qed.

(** ** Auxiliary definitions for the round trip *)

(** What decoding the dump of a string gives back: a high surrogate
    directly followed by a low surrogate comes back as the one code point
    the pair encodes in UTF-16. *)
Fixpoint join_pairs (s : pystr) : pystr :=
  match s with
  | h :: t =>
      match t with
      | l :: r => if is_high h && is_low l then join_surrogates h l :: join_pairs r else h :: join_pairs t
      | [] => [h]
      end
  | [] => []
  end.

(** A code point of a Python [str]. *)
Definition valid_cp (c : Z) : bool := (0 <=? c) && (c <=? 0x10FFFF).

(** A title whose dump decodes back to itself: no high surrogate directly
    followed by a low surrogate. *)
Fixpoint no_surrogate_pair (s : pystr) : bool :=
  match s with
  | h :: ((l :: _) as t) => negb (is_high h && is_low l) && no_surrogate_pair t
  | _ => true
  end.

(** The text [json.dumps] gives for one todo, and for a run of todos
    after the opening bracket ([first] tells whether a separator comes
    first). *)
Definition todo_text (t : Todo) : pystr :=
  [123] ++ (encode_basestring_ascii (py_of_string "id") ++ key_sep ++ int_text (id t)
    ++ (item_sep ++ encode_basestring_ascii (py_of_string "title") ++ key_sep
          ++ encode_basestring_ascii (title t)
    ++ (item_sep ++ encode_basestring_ascii (py_of_string "done") ++ key_sep
          ++ py_of_string (if done t then "true"%string else "false"%string) ++ [])))
  ++ [125].

Fixpoint todos_text (first : bool) (l : list Todo) : pystr :=
  match l with
  | [] => []
  | t :: r => (if first then [] else item_sep) ++ todo_text t ++ todos_text false r
  end.

(** The todo [load] builds back from the dump of [t]. *)
Definition todo_reloaded (t : Todo) : Todo := mkTodo (id t) (join_pairs (title t)) (done t).

(** A todo whose dump [load] reads back (up to [join_pairs]). *)
Definition item_ok (t : Todo) : Prop :=
  digit_count (id t) <= int_max_str_digits /\ forallb valid_cp (title t) = true.

(** A todo the round trip reproduces. *)
Definition roundtrip_ok (t : Todo) : bool :=
  (digit_count (id t) <=? int_max_str_digits) && forallb valid_cp (title t)
  && no_surrogate_pair (title t).

(** The ids a run of [add] calls returns, each call with the outcome of
    its system calls and its title; a call that raises returns no id. *)
Fixpoint add_ids (calls : list (io * pystr)) (st : fs) : list Z :=
  match calls with
  | [] => []
  | (o, title_) :: cs =>
      let '(r, st') := add o title_ st in
      match r with
      | Ok t => id t :: add_ids cs st'
      | Err _ => add_ids cs st'
      end
  end.

(** ** Auxiliary definitions for what the decoder produces *)

(** Every [int] inside a decoded value has at most 4300 digits. *)
Fixpoint jints_ok (v : jval) : bool :=
  match v with
  | JInt z => digit_count z <=? int_max_str_digits
  | JArr l => (fix go (l : list jval) := match l with [] => true | x :: r => jints_ok x && go r end) l
  | JObj kv =>
      (fix go (kv : list (pystr * jval)) :=
         match kv with [] => true | (_, x) :: r => jints_ok x && go r end) kv
  | _ => true
  end.

(** The exceptions [json.loads] raises. *)
Definition decode_exn (e : exn) : Prop := e = JSONDecodeError \/ e = IntMaxStrDigits.

(** What each function of the decoder returns: values whose ints respect
    the limit, or one of the exceptions of [json.loads]. *)
Definition scan_ok (r : res (jval * pystr)) : Prop :=
  match r with Ok (v, _) => jints_ok v = true | Err e => decode_exn e end.

Definition items_ok (r : res (list jval * pystr)) : Prop :=
  match r with Ok (vs, _) => forallb jints_ok vs = true | Err e => decode_exn e end.

Definition pairs_ok (r : res (list (pystr * jval) * pystr)) : Prop :=
  match r with Ok (kvs, _) => forallb (fun kv => jints_ok (snd kv)) kvs = true | Err e => decode_exn e end.

(** The exceptions the model of [load] lets through ([IllTypedTodo] aside;
    [RecursionError] and the failures of [read_text] are outside it). *)
Definition load_exn (e : exn) : Prop :=
  e = IntMaxStrDigits \/ e = TypeError \/ e = KeyError \/ e = IllTypedTodo.


(** ASCII code points, which every stdout encoding encodes. *)
Definition is_ascii (c : Z) : bool := (0 <=? c) && (c <? 128).

(** The stdout encoding of a UTF-8 locale with [errors='strict']: every
    code point but the surrogates. *)
Definition not_surrogate (c : Z) : bool := negb ((0xD800 <=? c) && (c <=? 0xDFFF)).

Definition utf8_strict : codec :=
  mkCodec not_surrogate
    (fun c Hc => ltac:(unfold not_surrogate; apply negb_true_iff, andb_false_iff; left;
                        apply Z.leb_gt; lia)).



(** * Properties *)

Ltac zb := repeat first
  [ rewrite Z.eqb_eq in * | rewrite Z.eqb_neq in * | rewrite Z.leb_le in * | rewrite Z.leb_gt in *
  | rewrite Z.ltb_lt in * | rewrite Z.ltb_ge in * | rewrite andb_true_iff in * | rewrite andb_false_iff in *
  | rewrite orb_true_iff in * | rewrite orb_false_iff in * | rewrite negb_true_iff in *
  | rewrite negb_false_iff in * ].

Ltac zsolve := zb; repeat split; try reflexivity; lia.

(** ** Helper lemmas *)

Lemma lstrip_all_space (s : pystr) :
  forallb py_isspace s = true -> lstrip s = [].
Proof.
  induction s as [|c r IH]; simpl; [reflexivity|].
  intros H; apply andb_prop in H as [H1 H2]; rewrite H1; auto.
Qed.

Lemma find_all_false {A : Type} (f : A -> bool) (l : list A) :
  (forall x, In x l -> f x = false) -> find f l = None.
Proof.
  induction l as [|x r IH]; simpl; intros H; [reflexivity|].
  rewrite (H x (or_introl eq_refl)). apply IH. intros y Hy; apply H; now right.
Qed.

(** A save that returns normally has replaced the store by the dump. *)
Lemma save_ok_store (o : io) (todos : list Todo) (st st' : fs) :
  save o todos st = (Ok tt, st') ->
  exists json, dumps (JArr (map todo_to_json todos)) = Ok json /\ store st' = Some json.
Proof.
  unfold save. destruct (dumps _) as [json|e]; [|discriminate].
  destruct o as [[|] [|] [|]]; simpl; intros H; inversion H; subst; eauto.
Qed.

Lemma int_repr_small (z : Z) :
  digit_count z <= int_max_str_digits -> int_repr z = Ok (int_text z).
Proof.
  intros H. unfold int_repr. destruct (Z.ltb_spec int_max_str_digits (digit_count z)); [lia|reflexivity].
Qed.

Lemma digits_value_app (ds ds' : pystr) :
  digits_value (ds ++ ds') = fold_left (fun v d => 10 * v + (d - 48)) ds' (digits_value ds).
Proof. unfold digits_value. apply fold_left_app. Qed.

Lemma digits_one (n : Z) (acc : pystr) :
  0 <= n < 10 ->
  exists ds, (48 + n mod 10) :: acc = ds ++ acc /\ ds <> [] /\
    forallb is_digit ds = true /\ digits_value ds = n /\
    (0 < n -> hd 0 ds <> 48) /\ (n = 0 -> ds = [48]) /\
    n < 10 ^ Z.of_nat (List.length ds).
Proof.
  intros Hn. exists [48 + n]. rewrite Z.mod_small by lia.
  split; [reflexivity|]. split; [discriminate|].
  split; [cbn [forallb]; unfold is_digit; zsolve|].
  split; [unfold digits_value; cbn [fold_left]; lia|].
  split; [cbn [hd]; lia|]. split; [intros ->; reflexivity|].
  change (Z.of_nat (List.length [48 + n])) with 1. rewrite Z.pow_1_r. lia.
Qed.

Lemma digits_aux_spec (fuel : nat) :
  forall n acc, 0 <= n < 10 ^ (Z.of_nat fuel + 1) ->
  exists ds, digits_aux fuel n acc = ds ++ acc /\ ds <> [] /\
    forallb is_digit ds = true /\ digits_value ds = n /\
    (0 < n -> hd 0 ds <> 48) /\ (n = 0 -> ds = [48]) /\
    n < 10 ^ Z.of_nat (List.length ds).
Proof.
  induction fuel as [|f IH]; intros n acc Hn.
  - change (10 ^ (Z.of_nat 0 + 1)) with 10 in Hn.
    cbn [digits_aux]. apply digits_one. exact Hn.
  - cbn [digits_aux]. destruct (Z.ltb_spec n 10) as [Hlt|Hge].
    + apply digits_one. lia.
    + pose proof (Z.div_mod n 10 ltac:(lia)) as Hdm.
      pose proof (Z.mod_pos_bound n 10 ltac:(lia)) as Hm.
      assert (Hq : 0 <= n / 10 < 10 ^ (Z.of_nat f + 1)).
      { split; [apply Z.div_pos; lia|].
        apply Z.div_lt_upper_bound; [lia|].
        rewrite <- Z.pow_succ_r by lia. rewrite Nat2Z.inj_succ in Hn.
        replace (Z.succ (Z.of_nat f + 1)) with (Z.succ (Z.of_nat f) + 1) by lia. lia. }
      destruct (IH (n / 10) ((48 + n mod 10) :: acc) Hq)
        as (ds & Heq & Hne & Hdig & Hval & Hhd & H0 & Hlen).
      exists (ds ++ [48 + n mod 10]). split; [rewrite Heq, <- app_assoc; reflexivity|].
      split; [destruct ds; [contradiction|discriminate]|].
      split; [rewrite forallb_app, Hdig; cbn [forallb]; unfold is_digit; zsolve|].
      split; [rewrite digits_value_app, Hval; cbn [fold_left]; lia|].
      split; [intros _; destruct ds as [|d ds]; [contradiction|]; apply Hhd; lia|].
      split; [lia|].
      rewrite length_app, Nat2Z.inj_add. change (Z.of_nat (List.length [48 + n mod 10])) with 1.
      rewrite Z.pow_add_r, Z.pow_1_r by lia. lia.
Qed.

Lemma nat_digits_spec (n : Z) :
  0 <= n ->
  exists ds, nat_digits n = ds /\ ds <> [] /\
    forallb is_digit ds = true /\ digits_value ds = n /\
    (0 < n -> hd 0 ds <> 48) /\ (n = 0 -> ds = [48]) /\
    n < 10 ^ Z.of_nat (List.length ds).
Proof.
  intros Hn. unfold nat_digits.
  assert (Hb : 0 <= n < 10 ^ (Z.of_nat (Z.to_nat (Z.log2 n)) + 1)).
  { split; [exact Hn|]. rewrite Z2Nat.id by apply Z.log2_nonneg.
    destruct (Z.eq_dec n 0) as [->|Hnz]; [reflexivity|].
    destruct (Z.log2_spec n ltac:(lia)) as [_ Hup].
    eapply Z.lt_le_trans; [exact Hup|].
    rewrite <- Z.add_1_r. apply Z.pow_le_mono_l.
    split; [lia|]. lia. }
  destruct (digits_aux_spec _ n [] Hb) as (ds & Heq & Hrest).
  exists ds. rewrite app_nil_r in Heq. split; [exact Heq|exact Hrest].
Qed.

(** An int at least [10 ^ k] has more than [k] digits. *)
Lemma digit_count_gt (k n : Z) :
  0 <= k -> 10 ^ k <= Z.abs n -> k < digit_count n.
Proof.
  intros Hk Hn. unfold digit_count.
  destruct (nat_digits_spec (Z.abs n) ltac:(lia)) as (ds & -> & _ & _ & _ & _ & _ & Hlt).
  apply (Z.pow_lt_mono_r_iff 10); [lia|lia|]. lia.
Qed.

(** ** C5: blank titles *)

(** C5: for a title that is empty or made only of whitespace, [add] raises
    [ValueError("Title cannot be empty")] and leaves the directory as it
    was, whatever the store holds: the store is not even read. *)
Theorem add_blank_title_rejected (o : io) (title_ : pystr) (st : fs)
  (Hblank : forallb py_isspace title_ = true) :
  add o title_ st = (Err (ValueError (py_of_string "Title cannot be empty")), st).
Proof.
  unfold add, strip. rewrite (lstrip_all_space title_ Hblank). reflexivity.
Qed.

(** The blank title ["   "] is refused even on a store whose [load] raises. *)
Lemma add_blank_title_rejected_witness :
  load (Some (py_of_string "5")) = Err TypeError /\
  add io_ok (py_of_string "   ") (mkFS (Some (py_of_string "5")) [] [] 0) =
    (Err (ValueError (py_of_string "Title cannot be empty")), mkFS (Some (py_of_string "5")) [] [] 0).
Proof.
  split; [vm_compute; reflexivity|].
  apply add_blank_title_rejected. vm_compute. reflexivity.
Defined.

(** ** C6: missing or malformed store *)




(** ** C9: valid JSON of another shape *)

(** C9 (counterexample): the JSON text ["{}"] decodes to an empty dict;
    iterating it yields nothing, so [load] returns the empty list instead of
    raising. *)
Lemma load_empty_object_returns :
  loads (py_of_string "{}") = Ok (JObj []) /\
  ~ (exists e, load (Some (py_of_string "{}")) = Err e).
Proof.
  split; [vm_compute; reflexivity|].
  intros [e He]. vm_compute in He. discriminate.
Qed.

(** C9 (amended): [load] raises an error other than [JSONDecodeError] on
    some valid JSON texts, e.g. ["5"] (an [int] is not iterable) and
    ["[1, 2]"] (an [int] is not subscriptable), while ["{}"] and the empty
    JSON string load as the empty list. *)
Theorem load_not_total_on_json :
  loads (py_of_string "5") = Ok (JInt 5) /\
  load (Some (py_of_string "5")) = Err TypeError /\
  loads (py_of_string "[1, 2]") = Ok (JArr [JInt 1; JInt 2]) /\
  load (Some (py_of_string "[1, 2]")) = Err TypeError /\
  load (Some (py_of_string "{}")) = Ok [] /\
  loads (json_text "''") = Ok (JStr []) /\
  load (Some (json_text "''")) = Ok [].
Proof. repeat split; vm_compute; reflexivity. Qed.

(** ** C10: the title is stored as given *)

(** C10: when [add] succeeds, the returned todo has exactly the given
    title (no trimming), and the store now holds the dump of the loaded
    todos followed by that same todo. *)
Theorem add_keeps_title_verbatim (o : io) (title_ : pystr) (st st' : fs)
  (todos : list Todo) (t : Todo)
  (Hload : load (store st) = Ok todos)
  (Hadd : add o title_ st = (Ok t, st')) :
  title t = title_ /\
  exists json, dumps (JArr (map todo_to_json (todos ++ [t]))) = Ok json /\ store st' = Some json.
Proof.
  unfold add in Hadd. destruct (strip title_) as [|c r]; [discriminate|].
  rewrite Hload in Hadd.
  destruct (save o (todos ++ [mkTodo (next_id todos) title_ false]) st) as [[[]|e] st''] eqn:Hs;
    simpl in Hadd; inversion Hadd; subst; clear Hadd.
  split; [reflexivity|]. eapply save_ok_store. exact Hs.
Qed.

(** The title ["  Buy  "] keeps its spaces, in the result and in the file. *)
Lemma add_keeps_title_verbatim_witness :
  add io_ok (py_of_string "  Buy  ") fs_empty =
    (Ok (mkTodo 1 (py_of_string "  Buy  ") false), snd (add io_ok (py_of_string "  Buy  ") fs_empty)) /\
  (title (mkTodo 1 (py_of_string "  Buy  ") false) = py_of_string "  Buy  " /\
   exists json, dumps (JArr (map todo_to_json ([] ++ [mkTodo 1 (py_of_string "  Buy  ") false]))) = Ok json
                /\ store (snd (add io_ok (py_of_string "  Buy  ") fs_empty)) = Some json).
Proof.
  split; [vm_compute; reflexivity|].
  apply (add_keeps_title_verbatim io_ok (py_of_string "  Buy  ") fs_empty
           (snd (add io_ok (py_of_string "  Buy  ") fs_empty)) []).
  - reflexivity.
  - vm_compute. reflexivity.
Defined.

(** ** C4: the error paths of [mark_done] *)

(** C4 (counterexample): on the empty store, [mark_done(10**4300)] finds no
    todo, but formatting [f"Todo #{todo_id} not found"] converts an int of
    4301 digits to text and raises the digit-limit [ValueError] instead of
    the "not found" error. *)
Lemma mark_done_huge_id_not_not_found :
  mark_done io_ok (10 ^ 4300) fs_empty = (Err IntMaxStrDigits, fs_empty).
Proof.
  assert (H : (int_max_str_digits <? digit_count (10 ^ 4300)) = true).
  { apply Z.ltb_lt. unfold int_max_str_digits. apply digit_count_gt; [lia|].
    rewrite Z.abs_eq by (apply Z.pow_nonneg; lia). apply Z.le_refl. }
  unfold mark_done, raise_todo_msg, fmt_todo_msg, int_repr. rewrite H. reflexivity.
Qed.

(** C4 (amended): on a store that loads as [todos], for an id of at most
    4300 digits, [mark_done] raises [ValueError("Todo #<id> not found")]
    when no todo has the id, and [ValueError("Todo #<id> is already done")]
    when the first todo with the id is done; in both cases nothing is saved
    and the directory is unchanged. *)
Theorem mark_done_error_paths (o : io) (todo_id : Z) (st : fs) (todos : list Todo)
  (Hload : load (store st) = Ok todos)
  (Hdig : digit_count todo_id <= int_max_str_digits) :
  ((forall t, In t todos -> id t <> todo_id) ->
     mark_done o todo_id st =
       (Err (ValueError (py_of_string "Todo #" ++ int_text todo_id ++ py_of_string " not found")), st)) /\
  (forall t, find (fun t => id t =? todo_id) todos = Some t -> done t = true ->
     mark_done o todo_id st =
       (Err (ValueError (py_of_string "Todo #" ++ int_text todo_id ++ py_of_string " is already done")), st)).
Proof.
  unfold mark_done. rewrite Hload. split.
  - intros Hnone. rewrite find_all_false.
    + unfold raise_todo_msg, fmt_todo_msg. rewrite int_repr_small by exact Hdig. reflexivity.
    + intros t Ht. apply Z.eqb_neq. exact (Hnone t Ht).
  - intros t Hfind Hdone. rewrite Hfind, Hdone.
    unfold raise_todo_msg, fmt_todo_msg. rewrite int_repr_small by exact Hdig. reflexivity.
Qed.

(** One undone todo with id 1: a first [mark_done 1] succeeds, and on the
    resulting store the first todo with id 1 is done. *)
Lemma mark_done_error_paths_witness :
  let st := snd (mark_done io_ok 1 (snd (add io_ok (py_of_string "Buy groceries") fs_empty))) in
  load (store st) = Ok [mkTodo 1 (py_of_string "Buy groceries") true] /\
  mark_done io_ok 1 st =
    (Err (ValueError (py_of_string "Todo #" ++ int_text 1 ++ py_of_string " is already done")), st) /\
  mark_done io_ok 999 st =
    (Err (ValueError (py_of_string "Todo #" ++ int_text 999 ++ py_of_string " not found")), st).
Proof.
  intros st.
  assert (Hl : load (store st) = Ok [mkTodo 1 (py_of_string "Buy groceries") true])
    by (vm_compute; reflexivity).
  split; [exact Hl|]. split.
  - apply (proj2 (mark_done_error_paths io_ok 1 st _ Hl ltac:(vm_compute; discriminate))
             (mkTodo 1 (py_of_string "Buy groceries") true)); reflexivity.
  - apply (proj1 (mark_done_error_paths io_ok 999 st _ Hl ltac:(vm_compute; discriminate))).
    intros t [<-|[]]. simpl. discriminate.
Defined.

(** ** C3: the temporary file of [save] *)

(** C3: when writing the temporary file fails, [save] raises and closes
    the descriptor, but the temporary file [.tmp_todos_0.json] is left in
    the directory; when the rename fails, the temporary file is left with
    the whole dump in it. *)
Theorem save_failure_leaves_temp_file :
  save (mkIO true false true) [mkTodo 1 (py_of_string "a") false] fs_empty =
    (Err OSError, mkFS None [(0, [])] [] 1) /\
  save (mkIO true true false) [mkTodo 1 (py_of_string "a") false] fs_empty =
    (Err OSError, mkFS None [(0, json_text "[{'id': 1, 'title': 'a', 'done': false}]")] [] 1).
Proof. split; vm_compute; reflexivity. Qed.

(** ** The dump of a string decodes back *)


Lemma land_ones_mod (a : Z) (n : Z) (m : Z) :
  0 <= n -> m = Z.ones n -> Z.land a m = a mod 2 ^ n.
Proof. intros Hn ->. apply Z.land_ones. exact Hn. Qed.

Lemma hexdig_ok (n : Z) :
  0 <= n < 16 -> is_hex (hexdig n) = true /\ hex_val (hexdig n) = n.
Proof.
  intros Hn. unfold hexdig, is_hex, is_digit, hex_val.
  destruct (Z.ltb_spec n 10);
    repeat match goal with
           | |- context [?a <=? ?b] => destruct (Z.leb_spec a b)
           end; cbn [andb orb]; split; first [reflexivity | lia | exfalso; lia].
Qed.

Lemma u_escape_hex (c : Z) :
  0 <= c < 65536 ->
  exists a b x d, u_escape c = [92; 117; a; b; x; d] /\ hex4 a b x d = Some c.
Proof.
  intros Hc. do 4 eexists. split; [reflexivity|].
  unfold hex4.
  rewrite !Z.shiftr_div_pow2 by lia.
  rewrite !(land_ones_mod _ 4 15) by (lia || reflexivity).
  change (2 ^ 12) with 4096. change (2 ^ 8) with 256. change (2 ^ 4) with 16.
  destruct (hexdig_ok ((c / 4096) mod 16)) as [H3a H3b]; [apply Z.mod_pos_bound; lia|].
  destruct (hexdig_ok ((c / 256) mod 16)) as [H2a H2b]; [apply Z.mod_pos_bound; lia|].
  destruct (hexdig_ok ((c / 16) mod 16)) as [H1a H1b]; [apply Z.mod_pos_bound; lia|].
  destruct (hexdig_ok (c mod 16)) as [H0a H0b]; [apply Z.mod_pos_bound; lia|].
  rewrite H3a, H2a, H1a, H0a, H3b, H2b, H1b, H0b. cbv [andb]. f_equal.
  assert (E1 : c / 256 = c / 16 / 16) by (rewrite Z.div_div by lia; reflexivity).
  assert (E2 : c / 4096 = c / 256 / 16) by (rewrite Z.div_div by lia; reflexivity).
  pose proof (Z.div_mod c 16 ltac:(lia)).
  pose proof (Z.div_mod (c / 16) 16 ltac:(lia)).
  pose proof (Z.div_mod (c / 256) 16 ltac:(lia)).
  assert (Hq : 0 <= c / 4096 < 16) by (split; [apply Z.div_pos | apply Z.div_lt_upper_bound]; lia).
  rewrite (Z.mod_small (c / 4096) 16) by exact Hq.
  lia.
Qed.

Lemma lor_low (x r : Z) : 0 <= r < 1024 -> Z.lor (x * 1024) r = x * 1024 + r.
Proof.
  intros Hr.
  assert (H0 : Z.land (x * 1024) r = 0).
  { rewrite <- (Z.mod_small r 1024) by lia.
    change 1024 with (2 ^ 10). rewrite <- Z.land_ones by lia.
    rewrite (Z.land_comm r), Z.land_assoc, Z.land_ones by lia.
    rewrite Z.mod_mul by lia. apply Z.land_0_l. }
  rewrite <- Z.lxor_lor by exact H0. rewrite <- Z.add_nocarry_lxor by exact H0. reflexivity.
Qed.

Lemma surrogate_split (c : Z) :
  0x10000 <= c <= 0x10FFFF ->
  is_high (high_surrogate c) = true /\ is_low (low_surrogate c) = true /\
  join_surrogates (high_surrogate c) (low_surrogate c) = c /\
  0 <= high_surrogate c < 65536 /\ 0 <= low_surrogate c < 65536.
Proof.
  intros Hc. unfold is_high, is_low, join_surrogates, high_surrogate, low_surrogate.
  change (Z.shiftr 0x10000 10) with 64.
  rewrite Z.shiftr_div_pow2 by lia. change (2 ^ 10) with 1024.
  rewrite !(land_ones_mod _ 10 0x3FF) by (lia || reflexivity). change (2 ^ 10) with 1024.
  pose proof (Z.div_mod c 1024 ltac:(lia)) as Hdm.
  pose proof (Z.mod_pos_bound c 1024 ltac:(lia)) as Hr.
  set (q := c / 1024) in *. set (r := c mod 1024) in *.
  assert (Hq : 64 <= q <= 1087) by lia.
  replace (0xD800 - 64 + q) with ((q - 64) + 54 * 1024) by lia.
  replace (0xDC00 + r) with (r + 55 * 1024) by lia.
  rewrite !Z.mod_add by lia.
  rewrite (Z.mod_small (q - 64)) by lia. rewrite (Z.mod_small r) by lia.
  rewrite Z.shiftl_mul_pow2 by lia. change (2 ^ 10) with 1024.
  rewrite lor_low by lia.
  repeat split; zb; lia.
Qed.

(** ** The dump of a string decodes back *)

Lemma scan_plain (c : Z) (X : pystr) :
  c <> 34 -> c <> 92 -> 31 < c -> scanstring (c :: X) = res_cons c (scanstring X).
Proof.
  intros H1 H2 H3. cbn [scanstring].
  destruct (Z.eqb_spec c 34); [lia|]. destruct (Z.eqb_spec c 92); [lia|].
  destruct (Z.leb_spec c 31); [lia|]. reflexivity.
Qed.

Lemma scan_simple (x ch : Z) (X : pystr) :
  x <> 117 -> unescape_simple x = Some ch ->
  scanstring (92 :: x :: X) = res_cons ch (scanstring X).
Proof.
  intros Hx Hu. cbn [scanstring]. change (92 =? 34) with false. change (92 =? 92) with true.
  cbv iota. destruct (Z.eqb_spec x 117); [lia|]. rewrite Hu. reflexivity.
Qed.

Lemma scan_u_single (a b x d u : Z) (X : pystr) :
  hex4 a b x d = Some u ->
  (is_high u = false \/
   forall b' v e1 e2 e3 e4 r3, X = b' :: v :: e1 :: e2 :: e3 :: e4 :: r3 ->
     ((b' =? 92) && (v =? 117)) = false \/
     exists u2, hex4 e1 e2 e3 e4 = Some u2 /\ is_low u2 = false) ->
  scanstring (92 :: 117 :: a :: b :: x :: d :: X) = res_cons u (scanstring X).
Proof.
  intros Hh Hla. cbn [scanstring]. change (92 =? 34) with false. change (92 =? 92) with true.
  change (117 =? 117) with true. cbv iota. rewrite Hh.
  destruct (is_high u) eqn:Hhi; [|reflexivity].
  destruct Hla as [Hf|Hla]; [discriminate|].
  destruct X as [|b' [|v [|e1 [|e2 [|e3 [|e4 r3]]]]]]; try reflexivity.
  destruct (Hla b' v e1 e2 e3 e4 r3 eq_refl) as [Hn|(u2 & Hu2 & Hl)].
  - rewrite Hn. reflexivity.
  - destruct ((b' =? 92) && (v =? 117)); [|reflexivity]. rewrite Hu2, Hl. reflexivity.
Qed.

Lemma scan_u_pair (a b x d e1 e2 e3 e4 u u2 : Z) (X : pystr) :
  hex4 a b x d = Some u -> is_high u = true ->
  hex4 e1 e2 e3 e4 = Some u2 -> is_low u2 = true ->
  scanstring (92 :: 117 :: a :: b :: x :: d :: 92 :: 117 :: e1 :: e2 :: e3 :: e4 :: X) =
    res_cons (join_surrogates u u2) (scanstring X).
Proof.
  intros Hh Hhi Hh2 Hlo. cbn [scanstring]. change (92 =? 34) with false. change (92 =? 92) with true.
  change (117 =? 117) with true. cbv iota. rewrite Hh, Hhi, Hh2, Hlo. reflexivity.
Qed.

Lemma join_pairs_not_high (c : Z) (t : pystr) :
  is_high c = false -> join_pairs (c :: t) = c :: join_pairs t.
Proof. intros H. destruct t as [|l r]; cbn [join_pairs]; [reflexivity|]. rewrite H. reflexivity. Qed.

Lemma join_pairs_high_not_low (c l : Z) (t : pystr) :
  is_low l = false -> join_pairs (c :: l :: t) = c :: join_pairs (l :: t).
Proof. intros H. cbn [join_pairs]. rewrite H, andb_false_r. reflexivity. Qed.

Lemma join_pairs_pair (h l : Z) (t : pystr) :
  is_high h = true -> is_low l = true ->
  join_pairs (h :: l :: t) = join_surrogates h l :: join_pairs t.
Proof. intros H1 H2. cbn [join_pairs]. rewrite H1, H2. reflexivity. Qed.

(** The four shapes [enc_char] gives a code point. *)
Lemma enc_char_cases (c : Z) :
  valid_cp c = true ->
  (enc_char c = [c] /\ c <> 34 /\ c <> 92 /\ 31 < c <= 126)
  \/ (exists x, enc_char c = [92; x] /\ x <> 117 /\ unescape_simple x = Some c /\ 0 <= c <= 92)
  \/ (enc_char c = u_escape c /\ 0 <= c < 0x10000)
  \/ (enc_char c = u_escape (high_surrogate c) ++ u_escape (low_surrogate c) /\ 0x10000 <= c <= 0x10FFFF).
Proof.
  intros Hv. unfold valid_cp in Hv. zb.
  unfold enc_char, S_CHAR.
  destruct ((32 <=? c) && (c <=? 126) && negb (c =? 92) && negb (c =? 34)) eqn:Hs.
  - left. zb. repeat split; lia.
  - right. unfold ascii_escape_unichar.
    destruct (Z.eqb_spec c 92) as [->|H92];
      [left; exists 92; repeat split; [discriminate|lia|lia]|].
    destruct (Z.eqb_spec c 34) as [->|H34];
      [left; exists 34; repeat split; [discriminate|lia|lia]|].
    destruct (Z.eqb_spec c 8) as [->|H8];
      [left; exists 98; repeat split; [discriminate|lia|lia]|].
    destruct (Z.eqb_spec c 12) as [->|H12];
      [left; exists 102; repeat split; [discriminate|lia|lia]|].
    destruct (Z.eqb_spec c 10) as [->|H10];
      [left; exists 110; repeat split; [discriminate|lia|lia]|].
    destruct (Z.eqb_spec c 13) as [->|H13];
      [left; exists 114; repeat split; [discriminate|lia|lia]|].
    destruct (Z.eqb_spec c 9) as [->|H9];
      [left; exists 116; repeat split; [discriminate|lia|lia]|].
    right. destruct (Z.leb_spec 0x10000 c).
    + right. split; [reflexivity|lia].
    + left. split; [reflexivity|lia].
Qed.

Lemma is_high_small (c : Z) : c < 0xD800 -> is_high c = false.
Proof. intros H. unfold is_high. zb. lia. Qed.

Lemma is_high_big (c : Z) : 0xDBFF < c -> is_high c = false.
Proof. intros H. unfold is_high. zb. lia. Qed.

(** The dump of a code point that is not a low surrogate never starts
    with a low-surrogate escape, whatever follows it. *)
Lemma enc_char_no_low_escape (l : Z) (Y : pystr) :
  valid_cp l = true -> is_low l = false ->
  forall b' v e1 e2 e3 e4 r3, enc_char l ++ Y = b' :: v :: e1 :: e2 :: e3 :: e4 :: r3 ->
    ((b' =? 92) && (v =? 117)) = false \/
    exists u2, hex4 e1 e2 e3 e4 = Some u2 /\ is_low u2 = false.
Proof.
  intros Hv Hl b' v e1 e2 e3 e4 r3 Heq.
  destruct (enc_char_cases l Hv) as [(He & H34 & H92 & Hr)|[(x & He & Hx & _ & _)|[(He & Hr)|(He & Hr)]]];
    rewrite He in Heq.
  - left. injection Heq as <- _. destruct (Z.eqb_spec l 92); [lia|reflexivity].
  - left. injection Heq as _ <- _. rewrite andb_false_iff. right. apply Z.eqb_neq. lia.
  - right. destruct (u_escape_hex l Hr) as (a & b & x & d & Hu & Hh).
    rewrite Hu in Heq. injection Heq as _ _ <- <- <- <- _. exists l. split; assumption.
  - right. destruct (surrogate_split l Hr) as (Hhi & _ & _ & Hb & _).
    destruct (u_escape_hex _ Hb) as (a & b & x & d & Hu & Hh).
    rewrite Hu in Heq. injection Heq as _ _ <- <- <- <- _.
    exists (high_surrogate l). split; [exact Hh|]. unfold is_high, is_low in *. zb. lia.
Qed.

(** [scanstring] inverts [enc_chars] up to [join_pairs]. *)
Lemma scan_enc_chars (n : nat) :
  forall s rest, (List.length s <= n)%nat -> forallb valid_cp s = true ->
  scanstring (enc_chars s ++ 34 :: rest) = Ok (join_pairs s, rest).
Proof.
  induction n as [|n IH]; intros s rest Hlen Hv.
  - destruct s; [reflexivity|simpl in Hlen; lia].
  - destruct s as [|c t]; [reflexivity|].
    simpl in Hlen. apply andb_prop in Hv as [Hc Ht].
    change (enc_chars (c :: t)) with (enc_char c ++ enc_chars t). rewrite <- app_assoc.
    assert (IHt : scanstring (enc_chars t ++ 34 :: rest) = Ok (join_pairs t, rest))
      by (apply IH; [lia|exact Ht]).
    destruct (enc_char_cases c Hc) as [(He & H34 & H92 & Hr)|[(x & He & Hx & Hu & Hr)|[(He & Hr)|(He & Hr)]]];
      rewrite He.
    + cbn [app]. rewrite scan_plain by lia. rewrite IHt.
      rewrite join_pairs_not_high by (apply is_high_small; lia). reflexivity.
    + cbn [app]. rewrite (scan_simple x c) by assumption. rewrite IHt.
      rewrite join_pairs_not_high by (apply is_high_small; lia). reflexivity.
    + destruct (u_escape_hex c Hr) as (a & b & x & d & Hue & Hh). rewrite Hue. cbn [app].
      destruct (is_high c) eqn:Hhi.
      * destruct t as [|l t'].
        -- rewrite (scan_u_single a b x d c) by (assumption || (right; intros * Heq; injection Heq as <- _; left; reflexivity)).
           rewrite IHt. reflexivity.
        -- apply andb_prop in Ht as [Hl Ht'].
           destruct (is_low l) eqn:Hlo.
           ++ (* a surrogate pair written as two escapes *)
              destruct (enc_char_cases l Hl) as [(_ & _ & _ & Hr')|[(_ & _ & _ & _ & Hr')|[(He' & Hr')|(_ & Hr')]]];
                try (unfold is_low in Hlo; zb; lia).
              change (enc_chars (l :: t')) with (enc_char l ++ enc_chars t').
              rewrite He', <- app_assoc.
              destruct (u_escape_hex l Hr') as (e1 & e2 & e3 & e4 & Hue' & Hh'). rewrite Hue'. cbn [app].
              rewrite (scan_u_pair a b x d e1 e2 e3 e4 c l) by assumption.
              rewrite IH by (simpl in Hlen; lia || exact Ht').
              rewrite join_pairs_pair by assumption. reflexivity.
           ++ rewrite (scan_u_single a b x d c).
              ** rewrite IHt. rewrite join_pairs_high_not_low by exact Hlo. reflexivity.
              ** exact Hh.
              ** right. change (enc_chars (l :: t')) with (enc_char l ++ enc_chars t').
                 rewrite <- app_assoc. apply enc_char_no_low_escape; assumption.
      * rewrite (scan_u_single a b x d c) by (assumption || (left; exact Hhi)).
        rewrite IHt. rewrite join_pairs_not_high by exact Hhi. reflexivity.
    + destruct (surrogate_split c Hr) as (Hhi & Hlo & Hj & Hb1 & Hb2).
      destruct (u_escape_hex _ Hb1) as (a & b & x & d & Hue & Hh). rewrite Hue.
      destruct (u_escape_hex _ Hb2) as (e1 & e2 & e3 & e4 & Hue' & Hh'). rewrite Hue'. cbn [app].
      rewrite (scan_u_pair a b x d e1 e2 e3 e4 _ _ _ Hh Hhi Hh' Hlo). rewrite IHt, Hj.
      rewrite join_pairs_not_high by (apply is_high_big; lia). reflexivity.
Qed.

(** ** The dump of an int decodes back *)

Lemma span_digits_app (ds : pystr) (c : Z) (r : pystr) :
  forallb is_digit ds = true -> is_digit c = false ->
  span_digits (ds ++ c :: r) = (ds, c :: r).
Proof.
  intros Hds Hc. induction ds as [|d ds IH]; cbn [app span_digits].
  - rewrite Hc. reflexivity.
  - cbn [forallb] in Hds. apply andb_prop in Hds as [Hd Hds].
    rewrite Hd, (IH Hds). reflexivity.
Qed.

Lemma match_number_digits (neg : bool) (ds r : pystr) :
  ds <> [] -> forallb is_digit ds = true -> (hd 0 ds = 48 -> ds = [48]) ->
  Z.of_nat (List.length ds) <= int_max_str_digits ->
  match_number ((if neg then [45] else []) ++ ds ++ 44 :: r) =
    Ok (JInt (if neg then - digits_value ds else digits_value ds), 44 :: r).
Proof.
  intros Hne Hdig H48 Hlen.
  destruct ds as [|d ds']; [contradiction|].
  cbn [forallb hd] in Hdig, H48. apply andb_prop in Hdig as [Hd Hds'].
  assert (Hd' : d <> 45) by (unfold is_digit in Hd; zb; lia).
  assert (Hint : (if (49 <=? d) && (d <=? 57)
                  then let (ds0, t) := span_digits (ds' ++ 44 :: r) in Some (d :: ds0, t)
                  else if d =? 48 then Some ([48], ds' ++ 44 :: r) else None)
                 = Some (d :: ds', 44 :: r)).
  { destruct ((49 <=? d) && (d <=? 57)) eqn:H19.
    - rewrite span_digits_app by (assumption || reflexivity). reflexivity.
    - assert (d = 48) as -> by (unfold is_digit in Hd; zb; lia).
      specialize (H48 eq_refl). injection H48 as ->. reflexivity. }
  unfold match_number.
  destruct neg; cbn [app].
  - change (45 =? 45) with true. cbv iota beta. rewrite Hint.
    destruct r as [|r0 r']; cbv iota beta; cbn -[Z.of_nat List.length digits_value Z.opp];
      destruct (Z.ltb_spec int_max_str_digits (Z.of_nat (List.length (d :: ds')))); try lia; reflexivity.
  - destruct (Z.eqb_spec d 45); [lia|]. cbv iota beta. rewrite Hint.
    destruct r as [|r0 r']; cbv iota beta; cbn -[Z.of_nat List.length digits_value Z.opp];
      destruct (Z.ltb_spec int_max_str_digits (Z.of_nat (List.length (d :: ds')))); try lia; reflexivity.
Qed.

Lemma literal_digit (d : Z) (s : pystr) : is_digit d = true -> literal (d :: s) = None.
Proof.
  intros Hd. unfold is_digit in Hd. zb.
  unfold literal; cbn [py_of_string strip_prefix].
  repeat match goal with
         | |- context [?a =? d] =>
             let E := fresh in destruct (Z.eqb_spec a d) as [E|E]; [vm_compute in E; lia|]
         end.
  reflexivity.
Qed.

Lemma literal_minus_digit (d : Z) (s : pystr) : is_digit d = true -> literal (45 :: d :: s) = None.
Proof.
  intros Hd. unfold is_digit in Hd. zb.
  unfold literal; cbn [py_of_string strip_prefix].
  repeat match goal with
         | |- context [?a =? d] =>
             let E := fresh in destruct (Z.eqb_spec a d) as [E|E]; [vm_compute in E; lia|]
         end.
  reflexivity.
Qed.

Lemma scan_int (f : nat) (z : Z) (r : pystr) :
  digit_count z <= int_max_str_digits ->
  scan_once (S f) (int_text z ++ 44 :: r) = Ok (JInt z, 44 :: r).
Proof.
  intros Hdc.
  destruct (nat_digits_spec (Z.abs z) ltac:(lia)) as (ds & Hds & Hne & Hdig & Hval & Hhd & H0 & _).
  unfold digit_count in Hdc. rewrite Hds in Hdc.
  assert (H48 : hd 0 ds = 48 -> ds = [48]).
  { intros Hh. destruct (Z.eq_dec (Z.abs z) 0) as [E|E]; [apply H0, E|].
    exfalso. apply Hhd; [lia|exact Hh]. }
  destruct ds as [|d ds']; [contradiction|].
  assert (Hd : is_digit d = true) by (cbn [forallb] in Hdig; apply andb_prop in Hdig; apply Hdig).
  assert (Hd' : is_digit d = true) by exact Hd.
  unfold is_digit in Hd'. zb.
  unfold int_text. rewrite Hds.
  pose proof (match_number_digits (z <? 0) (d :: ds') r ltac:(discriminate) Hdig H48 Hdc) as Hm.
  destruct (Z.ltb_spec z 0).
  - cbn [app scan_once] in *. rewrite Hm, literal_minus_digit by exact Hd.
    cbv [andb] in *. change (45 =? 34) with false. change (45 =? 123) with false. change (45 =? 91) with false.
    cbv iota. rewrite Hval. f_equal. f_equal. f_equal. lia.
  - cbn [app scan_once] in *. rewrite Hm, literal_digit by exact Hd.
    destruct (Z.eqb_spec d 34); [lia|]. destruct (Z.eqb_spec d 123); [lia|].
    destruct (Z.eqb_spec d 91); [lia|].
    rewrite Hval. f_equal. f_equal. f_equal. lia.
Qed.

(** ** The dump of a list of todos decodes back *)

Lemma encode_todo (t : Todo) :
  digit_count (id t) <= int_max_str_digits -> encode (todo_to_json t) = Ok (todo_text t).
Proof.
  intros H. unfold todo_to_json. cbn [encode]. rewrite int_repr_small by exact H.
  cbn. destruct (done t); reflexivity.
Qed.

Lemma encode_todos (todos : list Todo) :
  Forall (fun t => digit_count (id t) <= int_max_str_digits) todos ->
  dumps (JArr (map todo_to_json todos)) = Ok ([91] ++ todos_text true todos ++ [93]).
Proof.
  intros H. unfold dumps. cbn [encode].
  assert (Hl : forall first,
    (fix enc_list (first : bool) (l : list jval) : res pystr :=
        match l with
        | [] => Ok []
        | x :: r =>
            ex <- encode x ;;
            rest <- enc_list false r ;;
            Ok ((if first then [] else item_sep) ++ ex ++ rest)
        end) first (map todo_to_json todos) = Ok (todos_text first todos)).
  { induction H as [|t r Ht Hr IH]; intros first; [reflexivity|].
    cbn [map]. rewrite encode_todo by exact Ht. cbn [bind]. rewrite IH. reflexivity. }
  rewrite Hl. reflexivity.
Qed.

Lemma todo_text_app (t : Todo) (X : pystr) :
  todo_text t ++ X =
  [123; 34; 105; 100; 34; 58; 32] ++ int_text (id t) ++
  [44; 32; 34; 116; 105; 116; 108; 101; 34; 58; 32; 34] ++ enc_chars (title t) ++
  [34; 44; 32; 34; 100; 111; 110; 101; 34; 58; 32] ++
  (if done t then [116; 114; 117; 101] else [102; 97; 108; 115; 101]) ++ 125 :: X.
Proof.
  unfold todo_text.
  change (encode_basestring_ascii (py_of_string "id")) with [34; 105; 100; 34].
  change (encode_basestring_ascii (py_of_string "title")) with [34; 116; 105; 116; 108; 101; 34].
  change (encode_basestring_ascii (py_of_string "done")) with [34; 100; 111; 110; 101; 34].
  unfold encode_basestring_ascii, key_sep, item_sep.
  repeat rewrite <- app_assoc. cbn [app]. repeat rewrite <- app_assoc.
  destruct (done t); reflexivity.
Qed.

Lemma skip_ws_int (z : Z) (X : pystr) : skip_ws (int_text z ++ X) = int_text z ++ X.
Proof.
  destruct (nat_digits_spec (Z.abs z) ltac:(lia)) as (ds & Hds & Hne & Hdig & _).
  unfold int_text. rewrite Hds.
  destruct ds as [|d ds]; [contradiction|].
  cbn [forallb] in Hdig. apply andb_prop in Hdig as [Hd _]. unfold is_digit in Hd. zb.
  destruct (z <? 0); cbn [app skip_ws]; [reflexivity|].
  unfold is_ws. destruct (Z.eqb_spec d 32); [lia|]. destruct (Z.eqb_spec d 9); [lia|].
  destruct (Z.eqb_spec d 10); [lia|]. destruct (Z.eqb_spec d 13); [lia|]. reflexivity.
Qed.

Lemma literal_true (X : pystr) : literal (116 :: 114 :: 117 :: 101 :: X) = Some (JBool true, X).
Proof. reflexivity. Qed.

Lemma literal_false (X : pystr) : literal (102 :: 97 :: 108 :: 115 :: 101 :: X) = Some (JBool false, X).
Proof. reflexivity. Qed.

Lemma scan_todo (f : nat) (t : Todo) (X : pystr) :
  digit_count (id t) <= int_max_str_digits -> forallb valid_cp (title t) = true ->
  scan_once (S (S (S (S (S (S f)))))) (todo_text t ++ X) = Ok (todo_to_json (todo_reloaded t), X).
Proof.
  intros Hd Hv. rewrite todo_text_app. unfold todo_to_json, todo_reloaded; cbn [id title done].
  remember (S (S (S f))) as g eqn:Hg.
  cbn. rewrite skip_ws_int. subst g.
  rewrite scan_int by exact Hd. cbn.
  rewrite (scan_enc_chars (List.length (title t))) by (exact (le_n _) || exact Hv).
  destruct (done t); cbn; [rewrite literal_true|rewrite literal_false]; cbn; reflexivity.
Qed.

Lemma array_items_step (g : nat) (s : pystr) :
  array_items (S g) s =
  ('(v, t) <- scan_once g s ;;
   match skip_ws t with
   | [] => Err JSONDecodeError
   | c :: r =>
       if c =? 93 then Ok ([v], r)
       else if c =? 44 then '(vs, t') <- array_items g (skip_ws r) ;; Ok (v :: vs, t')
       else Err JSONDecodeError
   end).
Proof. reflexivity. Qed.

Lemma skip_ws_todo (t : Todo) (Y : pystr) : skip_ws (todo_text t ++ Y) = todo_text t ++ Y.
Proof. reflexivity. Qed.


Lemma array_items_todos (r : list Todo) :
  forall (t : Todo) (g : nat) (X : pystr),
  Forall item_ok (t :: r) -> (List.length r + 7 <= g)%nat ->
  array_items g (todo_text t ++ todos_text false r ++ 93 :: X) =
  Ok (map (fun u => todo_to_json (todo_reloaded u)) (t :: r), X).
Proof.
  induction r as [|t2 r IH]; intros t g X Hall Hg;
    inversion Hall as [|? ? [Hd Hv] Hrest]; subst;
    (destruct g as [|[|[|[|[|[|[|h]]]]]]]; [cbn [List.length] in Hg; lia ..|]);
    rewrite array_items_step, scan_todo by assumption; cbn [bind].
  - reflexivity.
  - cbn [todos_text]. rewrite <- !app_assoc. cbn [item_sep app skip_ws is_ws orb Z.eqb Pos.eqb].
    rewrite skip_ws_todo, IH.
    + reflexivity.
    + exact Hrest.
    + cbn [List.length] in Hg. lia.
Qed.

Lemma todos_text_length (l : list Todo) :
  forall first, (List.length l <= List.length (todos_text first l))%nat.
Proof.
  induction l as [|t r IH]; intros first; cbn [todos_text List.length]; [lia|].
  rewrite !length_app. specialize (IH false).
  unfold todo_text. cbn [app List.length]. lia.
Qed.

Lemma scan_once_array (f : nat) (L : pystr) : scan_once (S f) (91 :: L) = parse_array f L.
Proof. reflexivity. Qed.

Lemma parse_array_todo (f : nat) (t : Todo) (Y : pystr) :
  parse_array (S f) (todo_text t ++ Y) =
  ('(vs, u) <- array_items f (todo_text t ++ Y) ;; Ok (JArr vs, u)).
Proof. reflexivity. Qed.

Lemma loads_todos (todos : list Todo) :
  Forall item_ok todos ->
  loads ([91] ++ todos_text true todos ++ [93]) =
  Ok (JArr (map (fun u => todo_to_json (todo_reloaded u)) todos)).
Proof.
  intros Hall. destruct todos as [|t r]; [reflexivity|].
  pose proof (todos_text_length r false) as Hlen.
  cbn [todos_text app]. rewrite <- app_assoc.
  remember (todo_text t ++ todos_text false r ++ [93]) as L eqn:HL.
  assert (HLlen : (List.length r + 2 <= List.length L)%nat).
  { subst L. rewrite !length_app. unfold todo_text. cbn [app List.length]. lia. }
  unfold loads. change (91 =? 65279) with false. cbn [bind].
  change (skip_ws (91 :: L)) with (91 :: L). cbn [List.length].
  assert (E : exists k, (3 * S (List.length L) = S (S (List.length r + 7 + k)))%nat)
    by (exists (3 * List.length L + 1 - List.length r - 7)%nat; lia).
  destruct E as [k ->].
  rewrite scan_once_array. subst L. rewrite parse_array_todo, array_items_todos.
  - reflexivity.
  - exact Hall.
  - lia.
Qed.

Lemma todo_of_item_json (t : Todo) : todo_of_item (todo_to_json t) = Ok t.
Proof. destruct t as [i ti d]. reflexivity. Qed.

Lemma todos_of_items_json (l : list Todo) : todos_of_items (map todo_to_json l) = Ok l.
Proof.
  induction l as [|t r IH]; [reflexivity|].
  cbn [map todos_of_items]. rewrite todo_of_item_json. cbn [bind]. rewrite IH. reflexivity.
Qed.

Lemma join_pairs_id (s : pystr) : no_surrogate_pair s = true -> join_pairs s = s.
Proof.
  induction s as [|h t IH]; intros H; [reflexivity|].
  destruct (is_high h) eqn:Hh.
  - destruct t as [|l r]; [reflexivity|].
    cbn [no_surrogate_pair] in H. apply andb_prop in H as [Hn H].
    rewrite Hh in Hn. cbn [andb negb] in Hn. destruct (is_low l) eqn:Hl; [discriminate|].
    rewrite join_pairs_high_not_low by exact Hl. rewrite IH by exact H. reflexivity.
  - rewrite join_pairs_not_high by exact Hh. f_equal. apply IH.
    destruct t as [|l r]; [reflexivity|].
    cbn [no_surrogate_pair] in H. apply andb_prop in H as [_ H]. exact H.
Qed.

Lemma roundtrip_ok_item (t : Todo) : roundtrip_ok t = true -> item_ok t.
Proof.
  unfold roundtrip_ok, item_ok. intros H. apply andb_prop in H as [H _].
  apply andb_prop in H as [H1 H2]. zb. split; assumption.
Qed.

Lemma forallb_roundtrip_ok (todos : list Todo) :
  forallb roundtrip_ok todos = true -> Forall item_ok todos /\ map todo_reloaded todos = todos.
Proof.
  induction todos as [|t r IH]; intros H; [split; [constructor|reflexivity]|].
  cbn [forallb] in H. apply andb_prop in H as [Ht Hr].
  destruct (IH Hr) as [Hall Hmap]. split.
  - constructor; [apply roundtrip_ok_item, Ht|exact Hall].
  - cbn [map]. rewrite Hmap. f_equal.
    unfold todo_reloaded. rewrite join_pairs_id; [destruct t; reflexivity|].
    unfold roundtrip_ok in Ht. apply andb_prop in Ht as [_ Ht]. exact Ht.
Qed.

(** A save that returns normally of todos whose dump [load] can read
    leaves a store [load] reads as the [todo_reloaded] todos. *)
Lemma save_load_reloaded (o : io) (todos : list Todo) (st st' : fs) :
  Forall item_ok todos -> save o todos st = (Ok tt, st') ->
  load (store st') = Ok (map todo_reloaded todos).
Proof.
  intros Hall Hs. destruct (save_ok_store _ _ _ _ Hs) as (json & Hd & Hst).
  rewrite encode_todos in Hd by (eapply Forall_impl; [|exact Hall]; intros t [H _]; exact H).
  injection Hd as <-. rewrite Hst. unfold load.
  pose proof (loads_todos todos Hall) as Hl. cbn [app] in Hl |- *. rewrite Hl.
  cbn [todos_of_data]. rewrite <- (map_map todo_reloaded todo_to_json).
  apply todos_of_items_json.
Qed.

(** ** C1: [load] after [save] *)

(** C1 (counterexample): the todo with id 1 whose title is the two code
    points U+D83D (a high surrogate) and U+DE00 (a low surrogate), as
    Python builds with [chr(0xD83D) + chr(0xDE00)], is saved normally, but
    [json.dumps] writes the title as two [\uXXXX] escapes and [json.loads]
    joins the pair: [load] returns the title as the single code point
    U+1F600. *)
Lemma save_load_joins_surrogates :
  fst (save io_ok [mkTodo 1 [0xD83D; 0xDE00] false] fs_empty) = Ok tt /\
  load (store (snd (save io_ok [mkTodo 1 [0xD83D; 0xDE00] false] fs_empty))) =
    Ok [mkTodo 1 [0x1F600] false] /\
  [mkTodo 1 [0x1F600] false] <> [mkTodo 1 [0xD83D; 0xDE00] false].
Proof.
  split; [vm_compute; reflexivity|].
  split; [vm_compute; reflexivity|].
  intros H. injection H as H. discriminate H.
Qed.

(** C1 (amended): for todos whose ids have at most 4300 digits and whose
    titles are made of code points with no high surrogate directly followed
    by a low surrogate, [save] returns normally when its system calls
    succeed, and after any [save] of them that returns normally [load]
    gives back the same todos, in the same order, with the same fields. *)
Theorem save_load_roundtrip (todos : list Todo) (st : fs) :
  forallb roundtrip_ok todos = true ->
  fst (save io_ok todos st) = Ok tt /\
  (forall (o : io) (st' : fs), save o todos st = (Ok tt, st') -> load (store st') = Ok todos).
Proof.
  intros H. destruct (forallb_roundtrip_ok todos H) as [Hall Hmap]. split.
  - unfold save.
    rewrite encode_todos by (eapply Forall_impl; [|exact Hall]; intros t [Hd _]; exact Hd).
    reflexivity.
  - intros o st' Hs. rewrite (save_load_reloaded o todos st st' Hall Hs), Hmap. reflexivity.
Qed.

Lemma save_load_roundtrip_witness :
  forallb roundtrip_ok [mkTodo 1 (py_of_string "Buy groceries") true;
                        mkTodo 2 [32; 0xE9; 0x1F600; 0xDC00; 32] false] = true /\
  load (store (snd (save io_ok [mkTodo 1 (py_of_string "Buy groceries") true;
                                mkTodo 2 [32; 0xE9; 0x1F600; 0xDC00; 32] false] fs_empty))) =
  Ok [mkTodo 1 (py_of_string "Buy groceries") true; mkTodo 2 [32; 0xE9; 0x1F600; 0xDC00; 32] false].
Proof.
  assert (H : forallb roundtrip_ok [mkTodo 1 (py_of_string "Buy groceries") true;
                                    mkTodo 2 [32; 0xE9; 0x1F600; 0xDC00; 32] false] = true)
    by (vm_compute; reflexivity).
  split; [exact H|].
  destruct (save_load_roundtrip _ fs_empty H) as [H1 H2].
  apply (H2 io_ok). rewrite <- H1. apply surjective_pairing.
Defined.

(** ** Ids along a run of [add] calls *)

Lemma join_surrogates_range (h l : Z) :
  is_high h = true -> is_low l = true -> 0x10000 <= join_surrogates h l <= 0x10FFFF.
Proof.
  intros _ _. unfold join_surrogates.
  assert (Ha : 0 <= Z.land h 0x3FF < 1024).
  { change 0x3FF with (Z.ones 10). rewrite Z.land_ones by lia.
    pose proof (Z.mod_pos_bound h (2 ^ 10) ltac:(lia)). change (2 ^ 10) with 1024 in *. lia. }
  assert (Hb : 0 <= Z.land l 0x3FF < 1024).
  { change 0x3FF with (Z.ones 10). rewrite Z.land_ones by lia.
    pose proof (Z.mod_pos_bound l (2 ^ 10) ltac:(lia)). change (2 ^ 10) with 1024 in *. lia. }
  rewrite Z.shiftl_mul_pow2 by lia. change (2 ^ 10) with 1024.
  rewrite lor_low by exact Hb. lia.
Qed.

Lemma join_pairs_valid (n : nat) :
  forall s, (List.length s <= n)%nat -> forallb valid_cp s = true -> forallb valid_cp (join_pairs s) = true.
Proof.
  induction n as [|n IH]; intros s Hlen Hv.
  - destruct s; [reflexivity|cbn in Hlen; lia].
  - destruct s as [|h t]; [reflexivity|].
    cbn [forallb] in Hv. apply andb_prop in Hv as [Hh Ht].
    destruct t as [|l r]; [cbn; rewrite Hh; reflexivity|].
    cbn [forallb] in Ht. apply andb_prop in Ht as [Hl Hr].
    destruct (is_high h && is_low l) eqn:Hp.
    + apply andb_prop in Hp as [Hp1 Hp2].
      rewrite join_pairs_pair by assumption. cbn [forallb].
      rewrite (IH r) by (cbn in Hlen; lia || exact Hr).
      destruct (join_surrogates_range h l Hp1 Hp2). unfold valid_cp. zsolve.
    + assert (E : join_pairs (h :: l :: r) = h :: join_pairs (l :: r)).
      { cbn [join_pairs]. rewrite Hp. reflexivity. }
      rewrite E. cbn [forallb]. rewrite Hh, (IH (l :: r)); [reflexivity| |].
      * cbn in Hlen |- *. lia.
      * cbn [forallb]. rewrite Hl, Hr. reflexivity.
Qed.

Lemma item_ok_reloaded (t : Todo) : item_ok t -> item_ok (todo_reloaded t).
Proof.
  intros [Hd Hv]. split; [exact Hd|]. cbn [todo_reloaded title].
  apply (join_pairs_valid (List.length (title t))); [lia|exact Hv].
Qed.

Lemma max_id_map (f : Todo -> Todo) (l : list Todo) :
  (forall t, id (f t) = id t) -> max_id (map f l) = max_id l.
Proof.
  intros Hf. destruct l as [|t r]; [reflexivity|]. cbn [map max_id]. rewrite Hf.
  generalize (id t). induction r as [|u r IH]; intros m; [reflexivity|].
  cbn [map fold_left]. rewrite Hf. apply IH.
Qed.

Lemma max_id_bound (l : list Todo) : forall t, In t l -> id t <= max_id l.
Proof.
  destruct l as [|t0 r]; [intros t []|]. cbn [max_id].
  assert (G : forall m, m <= fold_left (fun m u => Z.max m (id u)) r m /\
             forall t, In t r -> id t <= fold_left (fun m u => Z.max m (id u)) r m).
  { induction r as [|u r IH]; intros m; cbn [fold_left]; [split; [lia|intros t []]|].
    destruct (IH (Z.max m (id u))) as [H1 H2]. split; [lia|].
    intros t [<-|Ht]; [lia|apply H2, Ht]. }
  intros t [<-|Ht]; [apply (proj1 (G _))|apply (proj2 (G _)), Ht].
Qed.

Lemma max_id_attained (l : list Todo) : l <> [] -> exists t, In t l /\ id t = max_id l.
Proof.
  destruct l as [|t0 r]; [contradiction|]. intros _. cbn [max_id].
  assert (G : forall t0 : Todo, exists t, (t = t0 \/ In t r) /\
             id t = fold_left (fun m u => Z.max m (id u)) r (id t0)).
  { induction r as [|u r IH]; intros t1; cbn [fold_left]; [exists t1; split; [left|]; reflexivity|].
    destruct (Z.max_spec (id t1) (id u)) as [[_ E]|[_ E]]; rewrite E.
    - destruct (IH u) as (t & Ht & Heq). exists t. split; [|exact Heq].
      destruct Ht as [->|Ht]; right; [left; reflexivity|right; exact Ht].
    - destruct (IH t1) as (t & Ht & Heq). exists t. split; [|exact Heq].
      destruct Ht as [->|Ht]; [left; reflexivity|right; right; exact Ht]. }
  destruct (G t0) as (t & Ht & Heq). exists t. split; [|exact Heq].
  destruct Ht as [->|Ht]; [left; reflexivity|right; exact Ht].
Qed.

Lemma next_id_max (l : list Todo) : next_id l = max_id l + 1.
Proof. destruct l; reflexivity. Qed.

Lemma max_id_snoc (l : list Todo) (x : Todo) :
  id x = max_id l + 1 -> max_id (l ++ [x]) = id x.
Proof.
  intros Hx. destruct l as [|t r]; [reflexivity|].
  cbn [app max_id]. rewrite fold_left_app. cbn [fold_left max_id] in *. lia.
Qed.

Lemma dumps_todos_ok (l : list Todo) (json : pystr) :
  dumps (JArr (map todo_to_json l)) = Ok json ->
  Forall (fun t => digit_count (id t) <= int_max_str_digits) l.
Proof.
  unfold dumps. cbn [encode].
  assert (Hl : forall first x,
    (fix enc_list (first : bool) (l : list jval) : res pystr :=
        match l with
        | [] => Ok []
        | x :: r =>
            ex <- encode x ;;
            rest <- enc_list false r ;;
            Ok ((if first then [] else item_sep) ++ ex ++ rest)
        end) first (map todo_to_json l) = Ok x ->
    Forall (fun t => digit_count (id t) <= int_max_str_digits) l).
  { induction l as [|t r IH]; intros first x H; [constructor|].
    cbn [map] in H. unfold todo_to_json at 1 in H. cbn [encode] in H. unfold int_repr in H.
    destruct (Z.ltb_spec int_max_str_digits (digit_count (id t))) as [Hlt|Hle]; [discriminate|].
    destruct (done t); cbn [bind] in H.
    all: destruct ((fix enc_list (first : bool) (l : list jval) : res pystr :=
        match l with
        | [] => Ok []
        | x :: r =>
            ex <- encode x ;;
            rest <- enc_list false r ;;
            Ok ((if first then [] else item_sep) ++ ex ++ rest)
        end) false (map todo_to_json r)) as [y|e] eqn:E; cbn [bind] in H; try discriminate;
    (constructor; [exact Hle|]; exact (IH false y E)). }
  intros H. destruct (_ true _) as [y|e] eqn:E in H; cbn [bind] in H; [|discriminate]. exact (Hl true y E).
Qed.

Lemma save_err_store (o : io) (l : list Todo) (st st' : fs) (e : exn) :
  save o l st = (Err e, st') -> store st' = store st.
Proof.
  unfold save. destruct (dumps _) as [json|e']; [|intros H; inversion H; reflexivity].
  destruct o as [[|] [|] [|]]; cbn; intros H; inversion H; reflexivity.
Qed.

Lemma load_dump (l : list Todo) (json : pystr) :
  Forall item_ok l -> dumps (JArr (map todo_to_json l)) = Ok json ->
  load (Some json) = Ok (map todo_reloaded l).
Proof.
  intros Hall Hd.
  rewrite encode_todos in Hd by (eapply Forall_impl; [|exact Hall]; intros t [H _]; exact H).
  injection Hd as <-. unfold load.
  pose proof (loads_todos l Hall) as Hl. cbn [app] in Hl |- *. rewrite Hl.
  cbn [todos_of_data]. rewrite <- (map_map todo_reloaded todo_to_json).
  apply todos_of_items_json.
Qed.

Lemma add_ok_step (o : io) (title_ : pystr) (st st' : fs) (todos : list Todo) (t : Todo) :
  load (store st) = Ok todos -> add o title_ st = (Ok t, st') ->
  t = mkTodo (next_id todos) title_ false /\
  exists json, dumps (JArr (map todo_to_json (todos ++ [t]))) = Ok json /\ store st' = Some json.
Proof.
  intros Hload. unfold add. destruct (strip title_) as [|c r]; [intros H; discriminate H|].
  rewrite Hload. destruct (save o _ st) as [[[]|e] st''] eqn:Hs; cbn [bind]; intros H; inversion H; subst.
  split; [reflexivity|]. exact (save_ok_store _ _ _ _ Hs).
Qed.

Lemma add_err_store (o : io) (title_ : pystr) (st st' : fs) (e : exn) :
  add o title_ st = (Err e, st') -> store st' = store st.
Proof.
  unfold add. destruct (strip title_) as [|c r]; [intros H; inversion H; reflexivity|].
  destruct (load (store st)) as [todos|e']; [|intros H; inversion H; reflexivity].
  destruct (save o _ st) as [[[]|e''] st''] eqn:Hs; cbn [bind]; intros H; inversion H; subst.
  exact (save_err_store _ _ _ _ _ Hs).
Qed.

Lemma add_ids_consecutive (calls : list (io * pystr)) :
  forall (st : fs) (todos : list Todo),
  load (store st) = Ok todos -> Forall item_ok todos ->
  Forall (fun c => forallb valid_cp (snd c) = true) calls ->
  exists k, add_ids calls st = map (fun i => max_id todos + Z.of_nat i) (seq 1 k).
Proof.
  induction calls as [|[o title_] cs IH]; intros st todos Hload Hall Hcalls.
  - exists O. reflexivity.
  - inversion Hcalls as [|? ? Hv Hcs]; subst. cbn [snd] in Hv.
    cbn [add_ids]. destruct (add o title_ st) as [[t|e] st'] eqn:Ha.
    + destruct (add_ok_step _ _ _ _ _ _ Hload Ha) as [Ht (json & Hd & Hst)].
      assert (Hall' : Forall item_ok (todos ++ [t])).
      { apply Forall_app. split; [exact Hall|]. constructor; [|constructor]. split.
        - apply dumps_todos_ok in Hd. apply Forall_app in Hd as [_ Hd].
          inversion Hd; assumption.
        - subst t. exact Hv. }
      assert (Hid : id t = max_id todos + 1) by (subst t; apply next_id_max).
      destruct (IH st' (map todo_reloaded (todos ++ [t]))) as [k Hk].
      * rewrite Hst. exact (load_dump _ _ Hall' Hd).
      * apply Forall_map. eapply Forall_impl; [|exact Hall']. exact item_ok_reloaded.
      * exact Hcs.
      * exists (S k). rewrite Hk, max_id_map by reflexivity. rewrite max_id_snoc by exact Hid.
        cbn [seq map]. rewrite Hid. f_equal; try lia.
        rewrite <- (seq_shift k 1), map_map. apply map_ext. intros i. lia.
    + apply IH with (todos := todos); [|exact Hall|exact Hcs].
      rewrite (add_err_store _ _ _ _ _ Ha). exact Hload.
Qed.

(** ** C2: the id [add] assigns *)

(** C2: when [add] returns a todo, the store it loaded held [todos], and
    the todo is [Todo(next_id todos, title, False)], appended at the end
    of [todos] in the dump written to the store.  [next_id [] = 1], and
    on a non-empty list [next_id] is one more than the largest id.  Hence
    along any run of [add] calls started on a store that loads as the
    empty list (such as a missing file), whatever the outcome of each
    call's system calls, the calls that return give the ids 1, 2, ..., k
    in order (titles being Python strings: code points in range). *)
Theorem add_next_id :
  (forall (o : io) (title_ : pystr) (st st' : fs) (todos : list Todo) (t : Todo),
     load (store st) = Ok todos -> add o title_ st = (Ok t, st') ->
     t = mkTodo (next_id todos) title_ false /\
     exists json, dumps (JArr (map todo_to_json (todos ++ [t]))) = Ok json /\ store st' = Some json) /\
  next_id [] = 1 /\
  (forall todos : list Todo, todos <> [] ->
     next_id todos = max_id todos + 1 /\ (forall t, In t todos -> id t <= max_id todos) /\
     exists t, In t todos /\ id t = max_id todos) /\
  (forall (calls : list (io * pystr)) (st : fs),
     load (store st) = Ok [] -> Forall (fun c => forallb valid_cp (snd c) = true) calls ->
     exists k, add_ids calls st = map Z.of_nat (seq 1 k)).
Proof.
  split; [exact add_ok_step|]. split; [reflexivity|]. split.
  - intros todos Hne. split; [apply next_id_max|]. split; [apply max_id_bound|].
    apply max_id_attained, Hne.
  - intros calls st Hload Hcalls.
    destruct (add_ids_consecutive calls st [] Hload (Forall_nil _) Hcalls) as [k Hk].
    exists k. rewrite Hk. apply map_ext. intros i. reflexivity.
Qed.

Lemma add_next_id_witness :
  load (store fs_empty) = Ok [] /\
  Forall (fun c => forallb valid_cp (snd c) = true)
    [(io_ok, py_of_string "a"); (mkIO true false true, py_of_string "b"); (io_ok, py_of_string "c")] /\
  add_ids [(io_ok, py_of_string "a"); (mkIO true false true, py_of_string "b"); (io_ok, py_of_string "c")]
    fs_empty = [1; 2].
Proof.
  assert (H1 : load (store fs_empty) = Ok []) by reflexivity.
  assert (H2 : Forall (fun c => forallb valid_cp (snd c) = true)
    [(io_ok, py_of_string "a"); (mkIO true false true, py_of_string "b"); (io_ok, py_of_string "c")])
    by (repeat constructor).
  split; [exact H1|]. split; [exact H2|].
  destruct (proj2 (proj2 (proj2 add_next_id)) _ fs_empty H1 H2) as [k Hk]. rewrite Hk.
  assert (Hk2 : List.length (add_ids [(io_ok, py_of_string "a"); (mkIO true false true, py_of_string "b");
                             (io_ok, py_of_string "c")] fs_empty) = 2%nat) by (vm_compute; reflexivity).
  rewrite Hk, length_map, length_seq in Hk2. subst k. reflexivity.
Defined.

(** ** [mark_done] on the first todo with the id *)

Lemma raise_todo_msg_not_ok {A : Type} (todo_id : Z) (suffix : String.string) (x : A) :
  raise_todo_msg todo_id suffix <> Ok x.
Proof. unfold raise_todo_msg. destruct (fmt_todo_msg todo_id suffix); discriminate. Qed.

Lemma find_mark_first (todo_id : Z) (todos : list Todo) (t : Todo) :
  find (fun u => id u =? todo_id) todos = Some t ->
  exists pre post, todos = pre ++ t :: post /\ Forall (fun u => id u <> todo_id) pre /\
    id t = todo_id /\ mark_first todo_id todos = pre ++ mkTodo (id t) (title t) true :: post.
Proof.
  induction todos as [|u r IH]; cbn [find mark_first]; [discriminate|].
  destruct (Z.eqb_spec (id u) todo_id) as [E|E]; intros H.
  - injection H as <-. exists [], r. split; [reflexivity|]. split; [constructor|].
    split; [exact E|reflexivity].
  - destruct (IH H) as (pre & post & Hr & Hpre & Hid & Hm).
    exists (u :: pre), post. rewrite Hm, Hr. split; [reflexivity|].
    split; [constructor; assumption|]. split; [exact Hid|reflexivity].
Qed.

(** ** C7: what [mark_done] changes *)

(** C7: when [mark_done] returns normally, the loaded list splits as
    [pre ++ t :: post] where [t] is the first todo with the id (no todo of
    [pre] has it) and is not done, and the store now holds the dump of
    [pre ++ Todo(t.id, t.title, True) :: post]: the same todos in the same
    order, only [t] marked done. *)
Theorem mark_done_sets_done (o : io) (todo_id : Z) (st st' : fs) (todos : list Todo)
  (Hload : load (store st) = Ok todos) (Hok : mark_done o todo_id st = (Ok tt, st')) :
  exists pre t post,
    todos = pre ++ t :: post /\ Forall (fun u => id u <> todo_id) pre /\
    id t = todo_id /\ done t = false /\
    exists json,
      dumps (JArr (map todo_to_json (pre ++ mkTodo (id t) (title t) true :: post))) = Ok json /\
      store st' = Some json.
Proof.
  unfold mark_done in Hok. rewrite Hload in Hok.
  destruct (find (fun u => id u =? todo_id) todos) as [t|] eqn:Hf;
    [|injection Hok as Hr _; exfalso; exact (raise_todo_msg_not_ok _ _ _ Hr)].
  destruct (done t) eqn:Hd; [injection Hok as Hr _; exfalso; exact (raise_todo_msg_not_ok _ _ _ Hr)|].
  destruct (find_mark_first _ _ _ Hf) as (pre & post & Htodos & Hpre & Hid & Hm).
  rewrite Hm in Hok. destruct (save_ok_store _ _ _ _ Hok) as (json & Hj & Hst).
  exists pre, t, post. repeat split; try assumption. exists json. split; assumption.
Qed.

Lemma mark_done_sets_done_witness :
  load (store (mkFS (Some (json_text "[{'id': 1, 'title': 'a', 'done': true}, {'id': 2, 'title': 'b', 'done': false}]")) [] [] 0)) =
    Ok [mkTodo 1 [97] true; mkTodo 2 [98] false] /\
  mark_done io_ok 2 (mkFS (Some (json_text "[{'id': 1, 'title': 'a', 'done': true}, {'id': 2, 'title': 'b', 'done': false}]")) [] [] 0) =
    (Ok tt, snd (mark_done io_ok 2 (mkFS (Some (json_text "[{'id': 1, 'title': 'a', 'done': true}, {'id': 2, 'title': 'b', 'done': false}]")) [] [] 0))) /\
  exists pre t post,
    [mkTodo 1 [97] true; mkTodo 2 [98] false] = pre ++ t :: post /\ Forall (fun u => id u <> 2) pre /\
    id t = 2 /\ done t = false /\
    exists json,
      dumps (JArr (map todo_to_json (pre ++ mkTodo (id t) (title t) true :: post))) = Ok json /\
      store (snd (mark_done io_ok 2 (mkFS (Some (json_text "[{'id': 1, 'title': 'a', 'done': true}, {'id': 2, 'title': 'b', 'done': false}]")) [] [] 0))) = Some json.
Proof.
  assert (H1 : load (store (mkFS (Some (json_text "[{'id': 1, 'title': 'a', 'done': true}, {'id': 2, 'title': 'b', 'done': false}]")) [] [] 0)) =
    Ok [mkTodo 1 [97] true; mkTodo 2 [98] false]) by (vm_compute; reflexivity).
  assert (H2 : mark_done io_ok 2 (mkFS (Some (json_text "[{'id': 1, 'title': 'a', 'done': true}, {'id': 2, 'title': 'b', 'done': false}]")) [] [] 0) =
    (Ok tt, snd (mark_done io_ok 2 (mkFS (Some (json_text "[{'id': 1, 'title': 'a', 'done': true}, {'id': 2, 'title': 'b', 'done': false}]")) [] [] 0))))
    by (vm_compute; reflexivity).
  split; [exact H1|]. split; [exact H2|].
  exact (mark_done_sets_done _ _ _ _ _ H1 H2).
Defined.

(** ** The decoder keeps ints within the digit limit *)

Lemma jints_ok_arr (l : list jval) : jints_ok (JArr l) = forallb jints_ok l.
Proof. induction l as [|x r IH]; [reflexivity|]. cbn [forallb]. rewrite <- IH. reflexivity. Qed.

Lemma jints_ok_obj (kv : list (pystr * jval)) :
  jints_ok (JObj kv) = forallb (fun kv => jints_ok (snd kv)) kv.
Proof. induction kv as [|[k x] r IH]; [reflexivity|]. cbn [forallb snd]. rewrite <- IH. reflexivity. Qed.

Lemma scanstring_err (n : nat) :
  forall s e, (List.length s <= n)%nat -> scanstring s = Err e -> e = JSONDecodeError.
Proof.
  induction n as [|n IH]; intros s e Hlen H.
  - destruct s; [injection H; auto|cbn in Hlen; lia].
  - destruct s as [|c r]; [injection H; auto|].
    cbn [List.length] in Hlen.
    assert (Hc : forall u t, (List.length t <= n)%nat -> res_cons u (scanstring t) = Err e -> e = JSONDecodeError).
    { intros u t Ht Hr. unfold res_cons in Hr. destruct (scanstring t) as [[a b]|e'] eqn:E; [discriminate|].
      injection Hr as <-. exact (IH t e' Ht E). }
    cbn [scanstring] in H.
    repeat match type of H with
           | context [if ?b then _ else _] => destruct b
           | context [match ?x with _ => _ end] =>
               lazymatch x with
               | scanstring _ => fail
               | _ => destruct x
               end
           end;
    try (injection H; auto; fail);
    try discriminate;
    (eapply Hc; [|exact H]; cbn [List.length] in *; lia).
Qed.

Lemma fold_digits_bounds (ds : pystr) :
  forall v, forallb is_digit ds = true -> 0 <= v ->
  v * 10 ^ Z.of_nat (List.length ds) <= fold_left (fun v d => 10 * v + (d - 48)) ds v
  < (v + 1) * 10 ^ Z.of_nat (List.length ds).
Proof.
  induction ds as [|d ds IH]; intros v Hd Hv; cbn [fold_left List.length].
  - change (10 ^ Z.of_nat 0) with 1. lia.
  - cbn [forallb] in Hd. apply andb_prop in Hd as [Hd Hds]. unfold is_digit in Hd. zb.
    destruct (IH (10 * v + (d - 48)) Hds ltac:(lia)) as [H1 H2].
    rewrite Nat2Z.inj_succ, Z.pow_succ_r by lia.
    pose proof (Z.pow_pos_nonneg 10 (Z.of_nat (List.length ds)) ltac:(lia) ltac:(lia)). nia.
Qed.

Lemma digit_count_le (k n : Z) : 1 <= k -> Z.abs n < 10 ^ k -> digit_count n <= k.
Proof.
  intros Hk Hn. unfold digit_count.
  destruct (nat_digits_spec (Z.abs n) ltac:(lia)) as (ds & -> & Hne & Hdig & Hval & Hhd & H0 & _).
  destruct (Z.eq_dec (Z.abs n) 0) as [Hz|Hz]; [rewrite (H0 Hz); cbn; lia|].
  destruct ds as [|d ds]; [contradiction|].
  cbn [forallb] in Hdig. apply andb_prop in Hdig as [Hd Hds].
  cbn [hd] in Hhd. specialize (Hhd ltac:(lia)).
  unfold digits_value in Hval. cbn [fold_left] in Hval. unfold is_digit in Hd. zb.
  destruct (fold_digits_bounds ds (10 * 0 + (d - 48)) Hds ltac:(lia)) as [H1 _].
  cbn [List.length]. rewrite Nat2Z.inj_succ.
  destruct (Z.le_gt_cases (Z.succ (Z.of_nat (List.length ds))) k) as [Hle|Hgt]; [exact Hle|].
  exfalso. assert (10 ^ k <= 10 ^ Z.of_nat (List.length ds)) by (apply Z.pow_le_mono_r; lia).
  nia.
Qed.

Lemma int_value_digits (neg : bool) (ids : pystr) :
  forallb is_digit ids = true -> 1 <= Z.of_nat (List.length ids) <= int_max_str_digits ->
  digit_count (if neg then - digits_value ids else digits_value ids) <= int_max_str_digits.
Proof.
  intros Hd Hl. destruct (fold_digits_bounds ids 0 Hd ltac:(lia)) as [H1 H2].
  assert (Hdc : digit_count (digits_value ids) <= Z.of_nat (List.length ids))
    by (apply digit_count_le; [lia|unfold digits_value; lia]).
  destruct neg; [|lia]. unfold digit_count in *. rewrite Z.abs_opp. lia.
Qed.

Lemma span_digits_digits (s : pystr) : forallb is_digit (fst (span_digits s)) = true.
Proof.
  induction s as [|c r IH]; [reflexivity|]. cbn [span_digits].
  destruct (is_digit c) eqn:Hc; [|reflexivity].
  destruct (span_digits r) as [ds t]. cbn [fst forallb] in *. rewrite Hc, IH. reflexivity.
Qed.

Lemma match_number_ok (s : pystr) : scan_ok (match_number s).
Proof.
  unfold match_number.
  destruct (match s with c :: r => if c =? 45 then (true, r) else (false, s) | [] => (false, s) end)
    as [neg s1].
  destruct s1 as [|c r]; [cbn; left; reflexivity|].
  assert (Hleaf : forall ids t1, forallb is_digit ids = true -> ids <> [] ->
    scan_ok (
      let '(frac, t2) :=
        match t1 with
        | p :: d :: t' =>
            if (p =? 46) && is_digit d
            then let (ds, t'') := span_digits t' in (46 :: d :: ds, t'')
            else ([], t1)
        | _ => ([], t1)
        end in
      let '(expo, t3) :=
        match t2 with
        | e :: t' =>
            if (e =? 101) || (e =? 69) then
              let '(sg, t'') :=
                match t' with
                | x :: y => if (x =? 45) || (x =? 43) then ([x], y) else ([], t')
                | [] => ([], t')
                end in
              match span_digits t'' with
              | ([], _) => ([], t2)
              | (ds, t4) => (e :: sg ++ ds, t4)
              end
            else ([], t2)
        | [] => ([], t2)
        end in
      match frac ++ expo with
      | [] =>
          if int_max_str_digits <? Z.of_nat (List.length ids) then Err IntMaxStrDigits
          else Ok (JInt (if neg then - digits_value ids else digits_value ids), t3)
      | _ => Ok (JFloat ((if neg then [45] else []) ++ ids ++ frac ++ expo), t3)
      end)).
  { intros ids t1 Hd Hne.
    repeat match goal with
           | |- context [if ?b then _ else _] => let E := fresh "E" in destruct b eqn:E
           | |- context [match ?x with _ => _ end] => let E := fresh "E" in destruct x eqn:E
           end;
      cbn [scan_ok jints_ok]; try reflexivity; try (right; reflexivity).
    all: apply Z.leb_le; first [apply (int_value_digits true) | apply (int_value_digits false)]; [exact Hd|].
    all: destruct ids as [|i0 ids]; [contradiction|]; cbn [List.length] in *; zb; lia. }
  destruct ((49 <=? c) && (c <=? 57)) eqn:Hc.
  - pose proof (span_digits_digits r) as Hsd. destruct (span_digits r) as [ds t] eqn:Hsp.
    cbv iota beta. apply Hleaf; [|discriminate].
    cbn [forallb fst] in *. rewrite Hsd, andb_true_r. unfold is_digit. zb. lia.
  - destruct (c =? 48) eqn:H48; [|cbn; left; reflexivity].
    cbv iota beta. apply Hleaf; [|discriminate]. zb. subst c. reflexivity.
Qed.

Lemma literal_ok (s : pystr) (v : jval) (t : pystr) : literal s = Some (v, t) -> jints_ok v = true.
Proof.
  unfold literal.
  repeat match goal with |- context [match ?x with _ => _ end] => destruct x end;
    intros H; try discriminate; injection H as <- _; reflexivity.
Qed.

Lemma scanstring_err' (s : pystr) (e : exn) : scanstring s = Err e -> decode_exn e.
Proof. intros H. left. exact (scanstring_err (List.length s) s e (le_n _) H). Qed.

Lemma parse_sound (fuel : nat) :
  (forall s, scan_ok (scan_once fuel s)) /\ (forall s, scan_ok (parse_array fuel s)) /\
  (forall s, items_ok (array_items fuel s)) /\ (forall s, scan_ok (parse_object fuel s)) /\
  (forall s, pairs_ok (object_items fuel s)).
Proof.
  induction fuel as [|f IH].
  - repeat split; intros s; left; reflexivity.
  - destruct IH as (I1 & I2 & I3 & I4 & I5).
    split; [|split; [|split; [|split]]]; intros s.
    + cbn [scan_once]. destruct s as [|c r]; [left; reflexivity|].
      destruct (c =? 34).
      { destruct (scanstring r) as [[str t]|e] eqn:E; cbn [bind scan_ok];
          [reflexivity|exact (scanstring_err' _ _ E)]. }
      destruct (c =? 123); [apply I4|]. destruct (c =? 91); [apply I2|].
      destruct (literal (c :: r)) as [[v t]|] eqn:E;
        [exact (literal_ok _ _ _ E)|apply match_number_ok].
    + cbn [parse_array]. destruct (skip_ws s) as [|c r]; [left; reflexivity|].
      destruct (c =? 93); [reflexivity|].
      pose proof (I3 (c :: r)) as F.
      destruct (array_items f (c :: r)) as [[vs t]|e]; cbn [bind scan_ok items_ok] in *;
        [rewrite jints_ok_arr; exact F|exact F].
    + cbn [array_items]. pose proof (I1 s) as F.
      destruct (scan_once f s) as [[v t]|e]; cbn [bind scan_ok items_ok] in *; [|exact F].
      destruct (skip_ws t) as [|c r]; [left; reflexivity|].
      destruct (c =? 93); [cbn [items_ok forallb]; rewrite F; reflexivity|].
      destruct (c =? 44); [|left; reflexivity].
      pose proof (I3 (skip_ws r)) as F2.
      destruct (array_items f (skip_ws r)) as [[vs t']|e]; cbn [bind items_ok forallb] in *;
        [rewrite F, F2; reflexivity|exact F2].
    + cbn [parse_object]. destruct (skip_ws s) as [|c r]; [left; reflexivity|].
      destruct (c =? 125); [reflexivity|].
      pose proof (I5 (c :: r)) as F.
      destruct (object_items f (c :: r)) as [[kvs t]|e]; cbn [bind scan_ok pairs_ok] in *;
        [rewrite jints_ok_obj; exact F|exact F].
    + cbn [object_items]. destruct s as [|c r]; [left; reflexivity|].
      destruct (c =? 34); [|left; reflexivity].
      destruct (scanstring r) as [[k t]|e] eqn:E; cbn [bind pairs_ok];
        [|exact (scanstring_err' _ _ E)].
      destruct (skip_ws t) as [|d t']; [left; reflexivity|].
      destruct (d =? 58); [|left; reflexivity].
      pose proof (I1 (skip_ws t')) as F1.
      destruct (scan_once f (skip_ws t')) as [[v u]|e]; cbn [bind scan_ok pairs_ok] in *; [|exact F1].
      destruct (skip_ws u) as [|e u']; [left; reflexivity|].
      destruct (e =? 125); [cbn [pairs_ok forallb snd]; rewrite F1; reflexivity|].
      destruct (e =? 44); [|left; reflexivity].
      pose proof (I5 (skip_ws u')) as F2.
      destruct (object_items f (skip_ws u')) as [[kvs u'']|e']; cbn [bind pairs_ok forallb snd] in *;
        [rewrite F1, F2; reflexivity|exact F2].
Qed.

(** ** What [load] returns or raises *)

Lemma loads_sound (s : pystr) :
  match loads s with Ok v => jints_ok v = true | Err e => decode_exn e end.
Proof.
  unfold loads.
  destruct (match s with
            | c :: _ => if c =? 0xFEFF then Err JSONDecodeError else Ok tt
            | [] => Ok tt end) as [[]|e] eqn:E; cbn [bind].
  2: { destruct s as [|c r]; [discriminate|]. destruct (c =? 0xFEFF); [|discriminate].
       injection E as <-. left. reflexivity. }
  pose proof (proj1 (parse_sound (S (3 * List.length (skip_ws s)))) (skip_ws s)) as F.
  destruct (scan_once _ _) as [[v t]|e]; cbn [bind scan_ok] in *; [|exact F].
  destruct (skip_ws t); [exact F|left; reflexivity].
Qed.

Lemma dict_get_jints (k : pystr) (kv : list (pystr * jval)) (v : jval) :
  forallb (fun kv => jints_ok (snd kv)) kv = true -> dict_get k kv = Some v -> jints_ok v = true.
Proof.
  induction kv as [|[k' x] r IH]; cbn [dict_get forallb snd]; [discriminate|].
  intros H. apply andb_prop in H as [Hx Hr].
  destruct (dict_get k r) as [w|]; [intros E; injection E as <-; exact (IH Hr eq_refl)|].
  destruct (list_eq_dec Z.eq_dec k k'); [intros E; injection E as <-; exact Hx|discriminate].
Qed.

Lemma subscript_sound (item : jval) (key : pystr) :
  jints_ok item = true ->
  match subscript item key with Ok v => jints_ok v = true | Err e => e = KeyError \/ e = TypeError end.
Proof.
  intros H. destruct item; cbn [subscript]; try (right; reflexivity).
  rewrite jints_ok_obj in H.
  destruct (dict_get key kv) as [v|] eqn:E; [exact (dict_get_jints _ _ _ H E)|left; reflexivity].
Qed.

Lemma todo_of_item_sound (item : jval) :
  jints_ok item = true ->
  match todo_of_item item with
  | Ok t => digit_count (id t) <= int_max_str_digits
  | Err e => load_exn e
  end.
Proof.
  intros H. unfold todo_of_item.
  pose proof (subscript_sound item (py_of_string "id") H) as F1.
  destruct (subscript item (py_of_string "id")) as [i|e]; cbn [bind];
    [|destruct F1 as [->| ->]; unfold load_exn; tauto].
  pose proof (subscript_sound item (py_of_string "title") H) as F2.
  destruct (subscript item (py_of_string "title")) as [ti|e]; cbn [bind];
    [|destruct F2 as [->| ->]; unfold load_exn; tauto].
  pose proof (subscript_sound item (py_of_string "done") H) as F3.
  destruct (subscript item (py_of_string "done")) as [d|e]; cbn [bind];
    [|destruct F3 as [->| ->]; unfold load_exn; tauto].
  destruct i; try (unfold load_exn; tauto).
  destruct ti; try (unfold load_exn; tauto).
  destruct d; try (unfold load_exn; tauto).
  cbn [id]. cbn [jints_ok] in F1. zb. exact F1.
Qed.

Lemma load_sound (stored : option pystr) :
  match load stored with
  | Ok todos => Forall (fun t => digit_count (id t) <= int_max_str_digits) todos
  | Err e => load_exn e
  end.
Proof.
  destruct stored as [text|]; cbn [load]; [|constructor].
  pose proof (loads_sound text) as F.
  destruct (loads text) as [data|e].
  - destruct data; cbn [todos_of_data]; try (right; left; reflexivity).
    + destruct s; [constructor|right; left; reflexivity].
    + rewrite jints_ok_arr in F. induction l as [|x r IH]; cbn [todos_of_items]; [constructor|].
      cbn [forallb] in F. apply andb_prop in F as [Fx Fr].
      pose proof (todo_of_item_sound x Fx) as G.
      destruct (todo_of_item x) as [t|e]; cbn [bind]; [|exact G].
      specialize (IH Fr). destruct (todos_of_items r) as [ts|e]; cbn [bind]; [|exact IH].
      constructor; assumption.
    + destruct kv; [constructor|right; left; reflexivity].
  - destruct F as [-> | ->]; [constructor|left; reflexivity].
Qed.

(** ** [save]: dump, errors, descriptors *)

Lemma dumps_todos (l : list Todo) :
  dumps (JArr (map todo_to_json l)) =
  if forallb (fun t => digit_count (id t) <=? int_max_str_digits) l
  then Ok ([91] ++ todos_text true l ++ [93]) else Err IntMaxStrDigits.
Proof.
  unfold dumps. cbn [encode].
  assert (Hl : forall first,
    (fix enc_list (first : bool) (l : list jval) : res pystr :=
        match l with
        | [] => Ok []
        | x :: r =>
            ex <- encode x ;;
            rest <- enc_list false r ;;
            Ok ((if first then [] else item_sep) ++ ex ++ rest)
        end) first (map todo_to_json l) =
    if forallb (fun t => digit_count (id t) <=? int_max_str_digits) l
    then Ok (todos_text first l) else Err IntMaxStrDigits).
  { induction l as [|t r IH]; intros first; [reflexivity|].
    cbn [map forallb]. destruct (Z.leb_spec (digit_count (id t)) int_max_str_digits) as [Hle|Hlt].
    - rewrite encode_todo by exact Hle. cbn [bind andb]. rewrite IH.
      destruct (forallb _ r); reflexivity.
    - unfold todo_to_json at 1. cbn [encode]. unfold int_repr.
      destruct (Z.ltb_spec int_max_str_digits (digit_count (id t))) as [_|]; [|lia].
      reflexivity. }
  rewrite Hl. destruct (forallb _ l); reflexivity.
Qed.

Lemma forallb_digits (l : list Todo) :
  forallb (fun t => digit_count (id t) <=? int_max_str_digits) l = true <->
  Forall (fun t => digit_count (id t) <= int_max_str_digits) l.
Proof.
  rewrite forallb_forall, Forall_forall. split; intros H t Ht; specialize (H t Ht); zb; exact H.
Qed.

Lemma save_err_exn (o : io) (l : list Todo) (st st' : fs) (e : exn) :
  save o l st = (Err e, st') -> e = IntMaxStrDigits \/ e = OSError.
Proof.
  unfold save. rewrite dumps_todos. destruct (forallb _ l).
  - destruct o as [[|] [|] [|]]; cbn; intros H; inversion H; right; reflexivity.
  - intros H; inversion H; left; reflexivity.
Qed.

Lemma save_open_fds (o : io) (l : list Todo) (st : fs) :
  ~ In (next_tmp st) (open_fds st) -> open_fds (snd (save o l st)) = open_fds st.
Proof.
  intros H. unfold save. destruct (dumps _) as [json|e]; [|reflexivity].
  destruct o as [[|] [|] [|]]; cbn [negb mkstemp_ok write_ok replace_ok snd close_fd open_fds];
    try reflexivity; rewrite remove_cons; apply notin_remove, H.
Qed.

Lemma remove_temp_fresh (k : Z) (l : list (Z * pystr)) :
  ~ In k (map fst l) -> remove_temp k l = l.
Proof.
  induction l as [|[k' c] r IH]; cbn [remove_temp map fst In]; intros H; [reflexivity|].
  destruct (Z.eqb_spec k' k) as [E|E]; [exfalso; apply H; left; exact E|].
  rewrite IH by tauto. reflexivity.
Qed.

(** [lstrip] / [strip] and whitespace. *)
Lemma lstrip_nil (s : pystr) : lstrip s = [] <-> forallb py_isspace s = true.
Proof.
  induction s as [|c r IH]; cbn [lstrip forallb]; [tauto|].
  destruct (py_isspace c); cbn [andb]; [exact IH|split; discriminate].
Qed.

Lemma forallb_lstrip (s : pystr) : forallb py_isspace (lstrip s) = forallb py_isspace s.
Proof.
  induction s as [|c r IH]; cbn [lstrip forallb]; [reflexivity|].
  destruct (py_isspace c) eqn:E; cbn [andb]; [exact IH|cbn [forallb]; rewrite E; reflexivity].
Qed.

Lemma forallb_rev {A : Type} (f : A -> bool) (l : list A) : forallb f (rev l) = forallb f l.
Proof.
  induction l as [|x r IH]; [reflexivity|]. cbn [rev forallb].
  rewrite forallb_app, IH. cbn [forallb]. rewrite andb_true_r, andb_comm. reflexivity.
Qed.

Lemma strip_nil (s : pystr) : strip s = [] <-> forallb py_isspace s = true.
Proof.
  unfold strip. rewrite <- forallb_lstrip, <- (forallb_rev py_isspace (lstrip s)),
    <- lstrip_nil. split; intros H.
  - apply (f_equal (@rev Z)) in H. rewrite rev_involutive in H. exact H.
  - rewrite H. reflexivity.
Qed.

(** [join_pairs] leaves no pair to join. *)
Lemma join_pairs_head (x : Z) (r : pystr) (y : Z) (r' : pystr) :
  join_pairs (x :: r) = y :: r' -> y = x \/ 0x10000 <= y.
Proof.
  destruct r as [|l r]; cbn [join_pairs]; [intros H; injection H as <- _; left; reflexivity|].
  destruct (is_high x && is_low l) eqn:E; intros H; injection H as <- _; [|left; reflexivity].
  apply andb_prop in E as [E1 E2]. right. apply (join_surrogates_range x l E1 E2).
Qed.

Lemma no_surrogate_pair_cons2 (a b : Z) (r : pystr) :
  no_surrogate_pair (a :: b :: r) = negb (is_high a && is_low b) && no_surrogate_pair (b :: r).
Proof. reflexivity. Qed.

Lemma join_pairs_no_pair (n : nat) :
  forall s, (List.length s <= n)%nat -> no_surrogate_pair (join_pairs s) = true.
Proof.
  induction n as [|n IH]; intros s Hlen.
  - destruct s; [reflexivity|cbn in Hlen; lia].
  - destruct s as [|h [|l r]]; [reflexivity|reflexivity|].
    cbn [List.length] in Hlen.
    destruct (is_high h && is_low l) eqn:E.
    + apply andb_prop in E as [E1 E2]. rewrite join_pairs_pair by assumption.
      destruct (join_surrogates_range h l E1 E2) as [Hj _].
      destruct (join_pairs r) as [|y r'] eqn:Er; [reflexivity|].
      rewrite no_surrogate_pair_cons2, <- Er, (IH r) by lia.
      rewrite is_high_big by lia. reflexivity.
    + assert (Ej : join_pairs (h :: l :: r) = h :: join_pairs (l :: r)).
      { cbn [join_pairs]. rewrite E. reflexivity. }
      rewrite Ej. destruct (join_pairs (l :: r)) as [|y r'] eqn:Er; [reflexivity|].
      rewrite no_surrogate_pair_cons2, <- Er, (IH (l :: r)) by (cbn [List.length]; lia).
      destruct (join_pairs_head l r y r' Er) as [->|Hy]; [rewrite E; reflexivity|].
      assert (Hl : is_low y = false) by (unfold is_low; zsolve).
      rewrite Hl, andb_false_r. reflexivity.
Qed.

Lemma join_pairs_idem (s : pystr) : join_pairs (join_pairs s) = join_pairs s.
Proof. apply join_pairs_id, (join_pairs_no_pair (List.length s)). lia. Qed.

(** ** [TodoManager] and the commands *)

Lemma mark_done_ok_save (o : io) (todo_id : Z) (st st' : fs) (todos : list Todo) :
  load (store st) = Ok todos -> mark_done o todo_id st = (Ok tt, st') ->
  save o (mark_first todo_id todos) st = (Ok tt, st').
Proof.
  intros Hload Hok. unfold mark_done in Hok. rewrite Hload in Hok.
  destruct (find (fun u => id u =? todo_id) todos) as [t|] eqn:Hf;
    [|injection Hok as Hr _; exfalso; exact (raise_todo_msg_not_ok _ _ _ Hr)].
  destruct (done t); [injection Hok as Hr _; exfalso; exact (raise_todo_msg_not_ok _ _ _ Hr)|].
  exact Hok.
Qed.

Lemma mark_done_err_store (o : io) (todo_id : Z) (st st' : fs) (e : exn) :
  mark_done o todo_id st = (Err e, st') -> store st' = store st.
Proof.
  unfold mark_done. destruct (load (store st)) as [todos|e']; [|intros H; inversion H; reflexivity].
  destruct (find _ todos) as [t|]; [|intros H; inversion H; reflexivity].
  destruct (done t); [intros H; inversion H; reflexivity|].
  apply save_err_store.
Qed.

Lemma Forall_mark_first (P : Todo -> Prop) (todo_id : Z) (todos : list Todo) :
  (forall t, P t -> P (mkTodo (id t) (title t) true)) -> Forall P todos ->
  Forall P (mark_first todo_id todos).
Proof.
  intros HP H. induction H as [|t r Ht Hr IH]; cbn [mark_first]; [constructor|].
  destruct (id t =? todo_id); constructor; auto.
Qed.

Lemma load_items_ok (stored : option pystr) (todos : list Todo) :
  load stored = Ok todos -> Forall (fun t => forallb valid_cp (title t) = true) todos ->
  Forall item_ok todos.
Proof.
  intros Hl Hv. pose proof (load_sound stored) as F. rewrite Hl in F.
  rewrite Forall_forall in *. intros t Ht. split; [apply F|apply Hv]; exact Ht.
Qed.


Lemma save_ok_items (o : io) (todos : list Todo) (st st' : fs) :
  Forall (fun t => forallb valid_cp (title t) = true) todos ->
  save o todos st = (Ok tt, st') -> Forall item_ok todos.
Proof.
  intros Hv Hs. destruct (save_ok_store _ _ _ _ Hs) as (json & Hd & _).
  pose proof (dumps_todos_ok _ _ Hd) as Hdig.
  rewrite Forall_forall in *. intros t Ht. split; [apply Hdig|apply Hv]; exact Ht.
Qed.


Lemma forallb_encodable_ascii (cd : codec) (s : pystr) :
  forallb is_ascii s = true -> forallb (encodable cd) s = true.
Proof.
  induction s as [|c r IH]; cbn [forallb]; [reflexivity|].
  intros H. apply andb_prop in H as [H1 H2]. unfold is_ascii in H1.
  apply andb_prop in H1 as [Ha Hb]. apply Z.leb_le in Ha. apply Z.ltb_lt in Hb.
  rewrite (encodable_ascii cd c) by lia. exact (IH H2).
Qed.

Lemma int_text_ascii (z : Z) : forallb is_ascii (int_text z) = true.
Proof.
  assert (Hd : forallb is_ascii (nat_digits (Z.abs z)) = true).
  { destruct (nat_digits_spec (Z.abs z) ltac:(lia)) as (ds & -> & _ & Hds & _).
    induction ds as [|c r IH]; [reflexivity|]. cbn [forallb] in *.
    apply andb_prop in Hds as [H1 H2]. rewrite (IH H2). unfold is_digit, is_ascii in *. zsolve. }
  unfold int_text. destruct (z <? 0); [|exact Hd]. cbn [forallb]. rewrite Hd. reflexivity.
Qed.

(** Rewrites [forallb (encodable cd)] of the ASCII pieces of a line to [true]. *)
Ltac ascii_pieces :=
  repeat rewrite forallb_app;
  repeat match goal with
  | |- context [forallb (encodable ?cd) (int_text ?z)] =>
      rewrite (forallb_encodable_ascii cd (int_text z) (int_text_ascii z))
  | |- context [forallb (encodable ?cd) (py_of_string ?s)] =>
      rewrite (forallb_encodable_ascii cd (py_of_string s) eq_refl)
  | |- context [forallb (encodable ?cd) [?c]] =>
      rewrite (forallb_encodable_ascii cd [c] eq_refl)
  end;
  rewrite ?andb_true_l, ?andb_true_r.





(** ** C8: listing *)

(** C8: [list_all] returns what [load] returns on the stored text and
    leaves the directory unchanged, so a second call returns the same.  On
    the store a [save] of todos wrote (one that returned normally), it
    returns those todos in their order, each with its id and done flag and
    its title as the JSON text decodes it: the title itself, unless it
    holds a surrogate pair, which comes back as one code point (see C1). *)
Theorem list_all_returns_stored (o : io) (todos : list Todo) (st0 st : fs)
  (Hsave : save o todos st0 = (Ok tt, st))
  (Hcp : Forall (fun t => forallb valid_cp (title t) = true) todos) :
  (forall st1, list_all st1 = (load (store st1), st1)) /\
  list_all st = (Ok (map todo_reloaded todos), st) /\
  (forallb (fun t => no_surrogate_pair (title t)) todos = true -> list_all st = (Ok todos, st)) /\
  list_all (snd (list_all st)) = list_all st.
Proof.
  pose proof (save_ok_items _ _ _ _ Hcp Hsave) as Hall.
  assert (Hl : list_all st = (Ok (map todo_reloaded todos), st)).
  { unfold list_all. rewrite (save_load_reloaded _ _ _ _ Hall Hsave). reflexivity. }
  split; [reflexivity|]. split; [exact Hl|]. split; [|reflexivity].
  intros Hn. rewrite Hl. f_equal. f_equal.
  clear Hl Hall Hcp Hsave. induction todos as [|t r IH]; [reflexivity|].
  cbn [forallb map] in *. apply andb_prop in Hn as [Ht Hr].
  rewrite (IH Hr). unfold todo_reloaded. rewrite (join_pairs_id _ Ht). destruct t; reflexivity.
Qed.

(** Applied to the store [save] writes for two todos, from the empty
    directory. *)
Lemma list_all_returns_stored_witness :
  save io_ok [mkTodo 1 [97] false; mkTodo 2 [98] true] fs_empty =
    (Ok tt, snd (save io_ok [mkTodo 1 [97] false; mkTodo 2 [98] true] fs_empty)) /\
  Forall (fun t => forallb valid_cp (title t) = true) [mkTodo 1 [97] false; mkTodo 2 [98] true] /\
  list_all (snd (save io_ok [mkTodo 1 [97] false; mkTodo 2 [98] true] fs_empty)) =
    (Ok [mkTodo 1 [97] false; mkTodo 2 [98] true],
     snd (save io_ok [mkTodo 1 [97] false; mkTodo 2 [98] true] fs_empty)).
Proof.
  assert (H1 : save io_ok [mkTodo 1 [97] false; mkTodo 2 [98] true] fs_empty =
    (Ok tt, snd (save io_ok [mkTodo 1 [97] false; mkTodo 2 [98] true] fs_empty))) by (vm_compute; reflexivity).
  assert (H2 : Forall (fun t => forallb valid_cp (title t) = true) [mkTodo 1 [97] false; mkTodo 2 [98] true])
    by (repeat constructor).
  split; [exact H1|]. split; [exact H2|].
  destruct (list_all_returns_stored _ _ _ _ H1 H2) as (_ & _ & H & _).
  apply H. reflexivity.
Defined.

(** * Further properties of [storage.py], [todo.py] and [cli.py] *)

(** X1: [save] of a todo whose id has more than 4300 digits raises the
    [ValueError] of the int digit limit in [json.dumps], before [mkstemp]:
    the directory is left as it was. *)
Theorem save_id_over_digit_limit (o : io) (todos : list Todo) (st : fs)
  (Hbig : Exists (fun t => int_max_str_digits < digit_count (id t)) todos) :
  save o todos st = (Err IntMaxStrDigits, st).
Proof.
  unfold save. rewrite dumps_todos.
  destruct (forallb _ todos) eqn:E; [|reflexivity].
  exfalso. apply forallb_digits in E. rewrite Forall_forall in E.
  apply Exists_exists in Hbig as (t & Ht & Hlt). specialize (E t Ht). lia.
Qed.

Lemma save_id_over_digit_limit_witness :
  Exists (fun t => int_max_str_digits < digit_count (id t)) [mkTodo 1 [97] false; mkTodo (10 ^ 4300) [98] false] /\
  save io_ok [mkTodo 1 [97] false; mkTodo (10 ^ 4300) [98] false] fs_empty = (Err IntMaxStrDigits, fs_empty).
Proof.
  assert (H : Exists (fun t => int_max_str_digits < digit_count (id t))
                [mkTodo 1 [97] false; mkTodo (10 ^ 4300) [98] false]).
  { apply Exists_cons_tl, Exists_cons_hd. cbn [id]. unfold int_max_str_digits.
    apply digit_count_gt; [lia|]. rewrite Z.abs_eq by (apply Z.pow_nonneg; lia). apply Z.le_refl. }
  split; [exact H|]. exact (save_id_over_digit_limit io_ok _ fs_empty H).
Defined.

(** X2: [save] closes the descriptor [mkstemp] opened on every path (the set
    of open descriptors is the same after the call), and when it returns
    normally the temporary file is gone (renamed onto the store): this for
    a directory where the next [mkstemp] name is not in use. *)
Theorem save_closes_fd (o : io) (todos : list Todo) (st : fs)
  (Hfd : ~ In (next_tmp st) (open_fds st)) (Htmp : ~ In (next_tmp st) (map fst (temps st))) :
  open_fds (snd (save o todos st)) = open_fds st /\
  (fst (save o todos st) = Ok tt -> temps (snd (save o todos st)) = temps st).
Proof.
  split; [exact (save_open_fds o todos st Hfd)|].
  unfold save. destruct (dumps _) as [json|e]; [|discriminate].
  destruct o as [[|] [|] [|]]; cbn [negb mkstemp_ok write_ok replace_ok fst snd close_fd temps];
    intros H; try discriminate.
  cbn [remove_temp]. rewrite Z.eqb_refl. exact (remove_temp_fresh _ _ Htmp).
Qed.


Lemma save_closes_fd_witness :
  ~ In (next_tmp fs_empty) (open_fds fs_empty) /\ ~ In (next_tmp fs_empty) (map fst (temps fs_empty)) /\
  open_fds (snd (save (mkIO true false true) [mkTodo 1 [97] false] fs_empty)) = open_fds fs_empty.
Proof.
  assert (H1 : ~ In (next_tmp fs_empty) (open_fds fs_empty)) by (intros []).
  assert (H2 : ~ In (next_tmp fs_empty) (map fst (temps fs_empty))) by (intros []).
  split; [exact H1|]. split; [exact H2|].
  exact (proj1 (save_closes_fd (mkIO true false true) [mkTodo 1 [97] false] fs_empty H1 H2)).
Defined.

(** X3: [save] replaces the store in one step: when it returns normally the
    store holds the whole dump of the list, and when it raises (whatever
    call failed) the store is what it was. *)
Theorem save_store_all_or_nothing (o : io) (todos : list Todo) (st : fs) :
  match fst (save o todos st) with
  | Ok _ => exists json, dumps (JArr (map todo_to_json todos)) = Ok json /\
                         store (snd (save o todos st)) = Some json
  | Err _ => store (snd (save o todos st)) = store st
  end.
Proof.
  destruct (save o todos st) as [[[]|e] st'] eqn:E; cbn [fst snd].
  - exact (save_ok_store _ _ _ _ E).
  - exact (save_err_store _ _ _ _ _ E).
Qed.

(** X4: After a [save] that returns normally, [load] gives back the list
    saved, in order, with the same ids and done flags; each title comes
    back with every high surrogate directly followed by a low surrogate
    joined into one code point. *)
Theorem load_after_save (o : io) (todos : list Todo) (st st' : fs)
  (Htitles : Forall (fun t => forallb valid_cp (title t) = true) todos)
  (Hsave : save o todos st = (Ok tt, st')) :
  load (store st') = Ok (map todo_reloaded todos).
Proof. exact (save_load_reloaded o todos st st' (save_ok_items _ _ _ _ Htitles Hsave) Hsave). Qed.

Lemma load_after_save_witness :
  Forall (fun t => forallb valid_cp (title t) = true) [mkTodo 1 [0xD83D; 0xDE00; 0xDE00] true] /\
  save io_ok [mkTodo 1 [0xD83D; 0xDE00; 0xDE00] true] fs_empty =
    (Ok tt, snd (save io_ok [mkTodo 1 [0xD83D; 0xDE00; 0xDE00] true] fs_empty)) /\
  load (store (snd (save io_ok [mkTodo 1 [0xD83D; 0xDE00; 0xDE00] true] fs_empty))) =
    Ok [mkTodo 1 [0x1F600; 0xDE00] true].
Proof.
  assert (H1 : Forall (fun t => forallb valid_cp (title t) = true) [mkTodo 1 [0xD83D; 0xDE00; 0xDE00] true])
    by (repeat constructor).
  assert (H2 : save io_ok [mkTodo 1 [0xD83D; 0xDE00; 0xDE00] true] fs_empty =
    (Ok tt, snd (save io_ok [mkTodo 1 [0xD83D; 0xDE00; 0xDE00] true] fs_empty))) by (vm_compute; reflexivity).
  split; [exact H1|]. split; [exact H2|].
  rewrite (load_after_save _ _ _ _ H1 H2). vm_compute. reflexivity.
Defined.

(** X5: A second round changes nothing: when [load] after a [save] gives
    [l1], saving [l1] (in any state of the directory) and loading again
    gives [l1]. *)
Theorem save_load_stable (o o' : io) (todos l1 : list Todo) (st st1 st2 st3 : fs)
  (Htitles : Forall (fun t => forallb valid_cp (title t) = true) todos)
  (Hs1 : save o todos st = (Ok tt, st1)) (Hl1 : load (store st1) = Ok l1)
  (Hs2 : save o' l1 st2 = (Ok tt, st3)) :
  load (store st3) = Ok l1.
Proof.
  pose proof (save_ok_items _ _ _ _ Htitles Hs1) as Hall.
  rewrite (save_load_reloaded _ _ _ _ Hall Hs1) in Hl1. injection Hl1 as <-.
  rewrite (save_load_reloaded o' (map todo_reloaded todos) st2 st3);
    [|apply Forall_map; eapply Forall_impl; [exact item_ok_reloaded|exact Hall]|exact Hs2].
  rewrite map_map. f_equal. apply map_ext. intros [i ti d]. unfold todo_reloaded. cbn [id title done].
  rewrite join_pairs_idem. reflexivity.
Qed.

Lemma save_load_stable_witness :
  Forall (fun t => forallb valid_cp (title t) = true) [mkTodo 1 [0xD83D; 0xDE00] false] /\
  save io_ok [mkTodo 1 [0xD83D; 0xDE00] false] fs_empty =
    (Ok tt, snd (save io_ok [mkTodo 1 [0xD83D; 0xDE00] false] fs_empty)) /\
  load (store (snd (save io_ok [mkTodo 1 [0xD83D; 0xDE00] false] fs_empty))) = Ok [mkTodo 1 [0x1F600] false] /\
  save io_ok [mkTodo 1 [0x1F600] false] fs_empty = (Ok tt, snd (save io_ok [mkTodo 1 [0x1F600] false] fs_empty)) /\
  load (store (snd (save io_ok [mkTodo 1 [0x1F600] false] fs_empty))) = Ok [mkTodo 1 [0x1F600] false].
Proof.
  assert (H1 : Forall (fun t => forallb valid_cp (title t) = true) [mkTodo 1 [0xD83D; 0xDE00] false])
    by (repeat constructor).
  assert (H2 : save io_ok [mkTodo 1 [0xD83D; 0xDE00] false] fs_empty =
    (Ok tt, snd (save io_ok [mkTodo 1 [0xD83D; 0xDE00] false] fs_empty))) by (vm_compute; reflexivity).
  assert (H3 : load (store (snd (save io_ok [mkTodo 1 [0xD83D; 0xDE00] false] fs_empty))) =
    Ok [mkTodo 1 [0x1F600] false]) by (vm_compute; reflexivity).
  assert (H4 : save io_ok [mkTodo 1 [0x1F600] false] fs_empty =
    (Ok tt, snd (save io_ok [mkTodo 1 [0x1F600] false] fs_empty))) by (vm_compute; reflexivity).
  split; [exact H1|]. split; [exact H2|]. split; [exact H3|]. split; [exact H4|].
  exact (save_load_stable io_ok io_ok _ _ fs_empty _ fs_empty _ H1 H2 H3 H4).
Defined.

(** X7: Whatever [load] returns can be saved: [save] of it returns normally
    when its system calls succeed. *)
Theorem load_result_saveable (stored : option pystr) (todos : list Todo) (st : fs)
  (Hload : load stored = Ok todos) :
  fst (save io_ok todos st) = Ok tt.
Proof.
  pose proof (load_sound stored) as F. rewrite Hload in F.
  unfold save. rewrite dumps_todos. apply forallb_digits in F. rewrite F. reflexivity.
Qed.

Lemma load_result_saveable_witness :
  load (Some (json_text "[{'id': -7, 'title': 'a', 'done': true}, {'id': 7, 'title': 'b', 'done': false}]")) =
    Ok [mkTodo (-7) [97] true; mkTodo 7 [98] false] /\
  fst (save io_ok [mkTodo (-7) [97] true; mkTodo 7 [98] false] fs_empty) = Ok tt.
Proof.
  assert (H : load (Some (json_text "[{'id': -7, 'title': 'a', 'done': true}, {'id': 7, 'title': 'b', 'done': false}]")) =
    Ok [mkTodo (-7) [97] true; mkTodo 7 [98] false]) by (vm_compute; reflexivity).
  split; [exact H|]. exact (load_result_saveable _ _ fs_empty H).
Defined.

(** X8: [add] on a store whose text is not JSON ([load] returns [[]]) and
    that returns normally gives the todo id 1 and overwrites the store
    with the one-todo list: the old contents are lost. *)
Theorem add_overwrites_unreadable_store (o : io) (title_ text : pystr) (st st' : fs) (t : Todo)
  (Hstore : store st = Some text) (Hbad : loads text = Err JSONDecodeError)
  (Hadd : add o title_ st = (Ok t, st')) :
  t = mkTodo 1 title_ false /\
  exists json, dumps (JArr [todo_to_json t]) = Ok json /\ store st' = Some json.
Proof.
  assert (Hload : load (store st) = Ok []) by (rewrite Hstore; cbn [load]; rewrite Hbad; reflexivity).
  exact (add_ok_step o title_ st st' [] t Hload Hadd).
Qed.

Lemma add_overwrites_unreadable_store_witness :
  store (mkFS (Some (json_text "[{'id': 1, 'title': 'a', 'done': false}")) [] [] 0) =
    Some (json_text "[{'id': 1, 'title': 'a', 'done': false}") /\
  loads (json_text "[{'id': 1, 'title': 'a', 'done': false}") = Err JSONDecodeError /\
  add io_ok [98] (mkFS (Some (json_text "[{'id': 1, 'title': 'a', 'done': false}")) [] [] 0) =
    (Ok (mkTodo 1 [98] false), snd (add io_ok [98] (mkFS (Some (json_text "[{'id': 1, 'title': 'a', 'done': false}")) [] [] 0))) /\
  mkTodo 1 [98] false = mkTodo 1 [98] false /\
  exists json, dumps (JArr [todo_to_json (mkTodo 1 [98] false)]) = Ok json /\
    store (snd (add io_ok [98] (mkFS (Some (json_text "[{'id': 1, 'title': 'a', 'done': false}")) [] [] 0))) = Some json.
Proof.
  assert (H1 : store (mkFS (Some (json_text "[{'id': 1, 'title': 'a', 'done': false}")) [] [] 0) =
    Some (json_text "[{'id': 1, 'title': 'a', 'done': false}")) by reflexivity.
  assert (H2 : loads (json_text "[{'id': 1, 'title': 'a', 'done': false}") = Err JSONDecodeError)
    by (vm_compute; reflexivity).
  assert (H3 : add io_ok [98] (mkFS (Some (json_text "[{'id': 1, 'title': 'a', 'done': false}")) [] [] 0) =
    (Ok (mkTodo 1 [98] false), snd (add io_ok [98] (mkFS (Some (json_text "[{'id': 1, 'title': 'a', 'done': false}")) [] [] 0))))
    by (vm_compute; reflexivity).
  split; [exact H1|]. split; [exact H2|]. split; [exact H3|].
  exact (add_overwrites_unreadable_store _ _ _ _ _ _ H1 H2 H3).
Defined.

(** X9: After an [add] that returns normally, [load] gives the todos it
    loaded followed by the new one, [Todo(next_id, title, False)] (titles
    again with surrogate pairs joined). *)
Theorem load_after_add (o : io) (title_ : pystr) (st st' : fs) (todos : list Todo) (t : Todo)
  (Hload : load (store st) = Ok todos)
  (Htitles : Forall (fun u => forallb valid_cp (title u) = true) todos)
  (Htitle : forallb valid_cp title_ = true)
  (Hadd : add o title_ st = (Ok t, st')) :
  load (store st') = Ok (map todo_reloaded todos ++ [mkTodo (next_id todos) (join_pairs title_) false]).
Proof.
  destruct (add_ok_step _ _ _ _ _ _ Hload Hadd) as (-> & json & Hd & Hst).
  assert (Hall : Forall item_ok (todos ++ [mkTodo (next_id todos) title_ false])).
  { pose proof (dumps_todos_ok _ _ Hd) as Hdig.
    rewrite Forall_forall in *. intros u Hu. split; [apply Hdig, Hu|].
    apply in_app_or in Hu as [Hu|[<-|[]]]; [apply Htitles, Hu|exact Htitle]. }
  rewrite Hst, (load_dump _ json Hall Hd), map_app. reflexivity.
Qed.

Lemma load_after_add_witness :
  load (store (mkFS (Some (json_text "[{'id': 4, 'title': 'a', 'done': true}]")) [] [] 0)) = Ok [mkTodo 4 [97] true] /\
  Forall (fun u => forallb valid_cp (title u) = true) [mkTodo 4 [97] true] /\
  forallb valid_cp [98] = true /\
  add io_ok [98] (mkFS (Some (json_text "[{'id': 4, 'title': 'a', 'done': true}]")) [] [] 0) =
    (Ok (mkTodo 5 [98] false), snd (add io_ok [98] (mkFS (Some (json_text "[{'id': 4, 'title': 'a', 'done': true}]")) [] [] 0))) /\
  load (store (snd (add io_ok [98] (mkFS (Some (json_text "[{'id': 4, 'title': 'a', 'done': true}]")) [] [] 0)))) =
    Ok (map todo_reloaded [mkTodo 4 [97] true] ++ [mkTodo (next_id [mkTodo 4 [97] true]) (join_pairs [98]) false]).
Proof.
  assert (H1 : load (store (mkFS (Some (json_text "[{'id': 4, 'title': 'a', 'done': true}]")) [] [] 0)) =
    Ok [mkTodo 4 [97] true]) by (vm_compute; reflexivity).
  assert (H2 : Forall (fun u => forallb valid_cp (title u) = true) [mkTodo 4 [97] true]) by (repeat constructor).
  assert (H3 : forallb valid_cp [98] = true) by reflexivity.
  assert (H4 : add io_ok [98] (mkFS (Some (json_text "[{'id': 4, 'title': 'a', 'done': true}]")) [] [] 0) =
    (Ok (mkTodo 5 [98] false), snd (add io_ok [98] (mkFS (Some (json_text "[{'id': 4, 'title': 'a', 'done': true}]")) [] [] 0))))
    by (vm_compute; reflexivity).
  split; [exact H1|]. split; [exact H2|]. split; [exact H3|]. split; [exact H4|].
  exact (load_after_add _ _ _ _ _ _ H1 H2 H3 H4).
Defined.

(** X10: [add] keeps ids unique: when the loaded todos have distinct ids, the
    new todo's id is larger than each of them, so the list it saves has
    distinct ids too. *)
Theorem add_keeps_ids_unique (o : io) (title_ : pystr) (st st' : fs) (todos : list Todo) (t : Todo)
  (Hload : load (store st) = Ok todos) (Huniq : NoDup (map id todos))
  (Hadd : add o title_ st = (Ok t, st')) :
  Forall (fun u => id u < id t) todos /\ NoDup (map id (todos ++ [t])).
Proof.
  destruct (add_ok_step _ _ _ _ _ _ Hload Hadd) as (-> & _).
  assert (Hlt : Forall (fun u => id u < id (mkTodo (next_id todos) title_ false)) todos).
  { apply Forall_forall. intros u Hu. cbn [id]. rewrite next_id_max.
    pose proof (max_id_bound todos u Hu). lia. }
  split; [exact Hlt|]. rewrite map_app. apply NoDup_app; [exact Huniq|repeat constructor; intros []|].
  intros i Hi [Heq|[]]. apply in_map_iff in Hi as (u & <- & Hu).
  rewrite Forall_forall in Hlt. specialize (Hlt u Hu). rewrite Heq in Hlt. lia.
Qed.

Lemma add_keeps_ids_unique_witness :
  load (store (mkFS (Some (json_text "[{'id': 9, 'title': 'a', 'done': true}, {'id': 2, 'title': 'b', 'done': false}]")) [] [] 0)) =
    Ok [mkTodo 9 [97] true; mkTodo 2 [98] false] /\
  NoDup (map id [mkTodo 9 [97] true; mkTodo 2 [98] false]) /\
  add io_ok [99] (mkFS (Some (json_text "[{'id': 9, 'title': 'a', 'done': true}, {'id': 2, 'title': 'b', 'done': false}]")) [] [] 0) =
    (Ok (mkTodo 10 [99] false),
     snd (add io_ok [99] (mkFS (Some (json_text "[{'id': 9, 'title': 'a', 'done': true}, {'id': 2, 'title': 'b', 'done': false}]")) [] [] 0))) /\
  NoDup (map id ([mkTodo 9 [97] true; mkTodo 2 [98] false] ++ [mkTodo 10 [99] false])).
Proof.
  assert (H1 : load (store (mkFS (Some (json_text "[{'id': 9, 'title': 'a', 'done': true}, {'id': 2, 'title': 'b', 'done': false}]")) [] [] 0)) =
    Ok [mkTodo 9 [97] true; mkTodo 2 [98] false]) by (vm_compute; reflexivity).
  assert (H2 : NoDup (map id [mkTodo 9 [97] true; mkTodo 2 [98] false])).
  { cbn [map id]. constructor; [intros [H|[]]; discriminate|]. constructor; [intros []|constructor]. }
  assert (H3 : add io_ok [99] (mkFS (Some (json_text "[{'id': 9, 'title': 'a', 'done': true}, {'id': 2, 'title': 'b', 'done': false}]")) [] [] 0) =
    (Ok (mkTodo 10 [99] false),
     snd (add io_ok [99] (mkFS (Some (json_text "[{'id': 9, 'title': 'a', 'done': true}, {'id': 2, 'title': 'b', 'done': false}]")) [] [] 0))))
    by (vm_compute; reflexivity).
  split; [exact H1|]. split; [exact H2|]. split; [exact H3|].
  exact (proj2 (add_keeps_ids_unique _ _ _ _ _ _ H1 H2 H3)).
Defined.

(** X11: A call of [add] or [mark_done] that raises leaves the store as it was. *)
Theorem failed_call_keeps_store (o : io) (st st' : fs) (e : exn) :
  (forall title_, add o title_ st = (Err e, st') -> store st' = store st) /\
  (forall todo_id, mark_done o todo_id st = (Err e, st') -> store st' = store st).
Proof.
  split; intros x H; [exact (add_err_store _ _ _ _ _ H)|exact (mark_done_err_store _ _ _ _ _ H)].
Qed.

(** X12: After a [mark_done] that returns normally, [load] gives the loaded
    todos with the first one carrying the id marked done. *)
Theorem load_after_mark_done (o : io) (todo_id : Z) (st st' : fs) (todos : list Todo)
  (Hload : load (store st) = Ok todos)
  (Htitles : Forall (fun u => forallb valid_cp (title u) = true) todos)
  (Hok : mark_done o todo_id st = (Ok tt, st')) :
  load (store st') = Ok (map todo_reloaded (mark_first todo_id todos)).
Proof.
  apply (save_load_reloaded o _ st st'); [|exact (mark_done_ok_save _ _ _ _ _ Hload Hok)].
  apply Forall_mark_first; [intros t [H1 H2]; split; assumption|].
  exact (load_items_ok _ _ Hload Htitles).
Qed.

Lemma load_after_mark_done_witness :
  load (store (mkFS (Some (json_text "[{'id': 3, 'title': 'a', 'done': false}, {'id': 3, 'title': 'b', 'done': false}]")) [] [] 0)) =
    Ok [mkTodo 3 [97] false; mkTodo 3 [98] false] /\
  Forall (fun u => forallb valid_cp (title u) = true) [mkTodo 3 [97] false; mkTodo 3 [98] false] /\
  mark_done io_ok 3 (mkFS (Some (json_text "[{'id': 3, 'title': 'a', 'done': false}, {'id': 3, 'title': 'b', 'done': false}]")) [] [] 0) =
    (Ok tt, snd (mark_done io_ok 3 (mkFS (Some (json_text "[{'id': 3, 'title': 'a', 'done': false}, {'id': 3, 'title': 'b', 'done': false}]")) [] [] 0))) /\
  load (store (snd (mark_done io_ok 3 (mkFS (Some (json_text "[{'id': 3, 'title': 'a', 'done': false}, {'id': 3, 'title': 'b', 'done': false}]")) [] [] 0)))) =
    Ok [mkTodo 3 [97] true; mkTodo 3 [98] false].
Proof.
  assert (H1 : load (store (mkFS (Some (json_text "[{'id': 3, 'title': 'a', 'done': false}, {'id': 3, 'title': 'b', 'done': false}]")) [] [] 0)) =
    Ok [mkTodo 3 [97] false; mkTodo 3 [98] false]) by (vm_compute; reflexivity).
  assert (H2 : Forall (fun u => forallb valid_cp (title u) = true) [mkTodo 3 [97] false; mkTodo 3 [98] false])
    by (repeat constructor).
  assert (H3 : mark_done io_ok 3 (mkFS (Some (json_text "[{'id': 3, 'title': 'a', 'done': false}, {'id': 3, 'title': 'b', 'done': false}]")) [] [] 0) =
    (Ok tt, snd (mark_done io_ok 3 (mkFS (Some (json_text "[{'id': 3, 'title': 'a', 'done': false}, {'id': 3, 'title': 'b', 'done': false}]")) [] [] 0))))
    by (vm_compute; reflexivity).
  split; [exact H1|]. split; [exact H2|]. split; [exact H3|].
  rewrite (load_after_mark_done _ _ _ _ _ H1 H2 H3). vm_compute. reflexivity.
Defined.

(** X13: [add] raises [ValueError("Title cannot be empty")] exactly when the
    title is made only of whitespace: no other failure (of [load] or of
    [save]) raises that error. *)
Theorem add_empty_title_error_iff (o : io) (title_ : pystr) (st : fs) :
  fst (add o title_ st) = Err (ValueError msg_title_empty) <-> forallb py_isspace title_ = true.
Proof.
  split.
  - unfold add. destruct (strip title_) as [|c r] eqn:Es; [intros _; apply strip_nil, Es|].
    pose proof (load_sound (store st)) as F.
    destruct (load (store st)) as [todos|e]; cbn [fst].
    + destruct (save o _ st) as [[[]|e] st''] eqn:Hs; cbn [bind fst]; [discriminate|].
      destruct (save_err_exn _ _ _ _ _ Hs) as [-> | ->]; discriminate.
    + intros H. injection H as ->. destruct F as [H|[H|[H|H]]]; discriminate H.
  - intros H. apply strip_nil in H. unfold add. rewrite H. reflexivity.
Qed.




(** X16: The [done] command on a todo that is already done: it echoes
    [Todo #<id> is already done] to stdout, exits with 0 and writes
    nothing. *)
Theorem cli_done_already_done (exn_str : exn -> pystr) (cd : codec) (o : io) (todo_id : Z) (st : fs)
  (todos : list Todo) (t : Todo)
  (Hload : load (store st) = Ok todos) (Hfind : find (fun u => id u =? todo_id) todos = Some t)
  (Hdone : done t = true) :
  cli_done exn_str cd o todo_id st =
  (Some (mkOut [(Stdout, py_of_string "Todo #" ++ int_text todo_id ++ py_of_string " is already done")] 0), st).
Proof.
  pose proof (load_sound (store st)) as F. rewrite Hload in F.
  apply find_some in Hfind as Hin. destruct Hin as [Hin Hid]. zb.
  rewrite Forall_forall in F. specialize (F t Hin). rewrite Hid in F.
  unfold cli_done, list_all. cbn [fst]. rewrite Hload, Hfind, Hdone.
  unfold fmt_todo_msg. rewrite int_repr_small by exact F. cbn [bind].
  cbn beta iota zeta. unfold echo_out. ascii_pieces. reflexivity.
Qed.

Lemma cli_done_already_done_witness :
  load (store (mkFS (Some (json_text "[{'id': 1, 'title': 'a', 'done': true}]")) [] [] 0)) = Ok [mkTodo 1 [97] true] /\
  find (fun u => id u =? 1) [mkTodo 1 [97] true] = Some (mkTodo 1 [97] true) /\
  done (mkTodo 1 [97] true) = true /\
  cli_done (fun _ => []) utf8_strict io_ok 1 (mkFS (Some (json_text "[{'id': 1, 'title': 'a', 'done': true}]")) [] [] 0) =
  (Some (mkOut [(Stdout, py_of_string "Todo #" ++ int_text 1 ++ py_of_string " is already done")] 0),
   mkFS (Some (json_text "[{'id': 1, 'title': 'a', 'done': true}]")) [] [] 0).
Proof.
  assert (H1 : load (store (mkFS (Some (json_text "[{'id': 1, 'title': 'a', 'done': true}]")) [] [] 0)) =
    Ok [mkTodo 1 [97] true]) by (vm_compute; reflexivity).
  assert (H2 : find (fun u => id u =? 1) [mkTodo 1 [97] true] = Some (mkTodo 1 [97] true)) by reflexivity.
  assert (H3 : done (mkTodo 1 [97] true) = true) by reflexivity.
  split; [exact H1|]. split; [exact H2|]. split; [exact H3|].
  exact (cli_done_already_done _ utf8_strict io_ok 1 _ _ _ H1 H2 H3).
Defined.

(** X17: The [done] command on an id no todo has: it echoes
    [Error: Todo #<id> not found] to stderr, exits with 1 and writes
    nothing (for an id of at most 4300 digits). *)
Theorem cli_done_not_found (exn_str : exn -> pystr) (cd : codec) (o : io) (todo_id : Z) (st : fs)
  (todos : list Todo)
  (Hload : load (store st) = Ok todos) (Hnone : Forall (fun u => id u <> todo_id) todos)
  (Hdig : digit_count todo_id <= int_max_str_digits) :
  cli_done exn_str cd o todo_id st =
  (Some (mkOut [(Stderr, py_of_string "Error: Todo #" ++ int_text todo_id ++ py_of_string " not found")] 1), st).
Proof.
  assert (Hf : find (fun u => id u =? todo_id) todos = None).
  { apply find_all_false. intros u Hu. rewrite Forall_forall in Hnone. specialize (Hnone u Hu). zsolve. }
  unfold cli_done, cli_done_mark, list_all, mark_done. cbn [fst]. rewrite Hload, Hf.
  unfold raise_todo_msg, fmt_todo_msg. rewrite int_repr_small by exact Hdig. reflexivity.
Qed.

Lemma cli_done_not_found_witness :
  load (store (mkFS (Some (json_text "[{'id': 1, 'title': 'a', 'done': false}]")) [] [] 0)) = Ok [mkTodo 1 [97] false] /\
  Forall (fun u => id u <> 2) [mkTodo 1 [97] false] /\ digit_count 2 <= int_max_str_digits /\
  cli_done (fun _ => []) utf8_strict io_ok 2 (mkFS (Some (json_text "[{'id': 1, 'title': 'a', 'done': false}]")) [] [] 0) =
  (Some (mkOut [(Stderr, py_of_string "Error: Todo #" ++ int_text 2 ++ py_of_string " not found")] 1),
   mkFS (Some (json_text "[{'id': 1, 'title': 'a', 'done': false}]")) [] [] 0).
Proof.
  assert (H1 : load (store (mkFS (Some (json_text "[{'id': 1, 'title': 'a', 'done': false}]")) [] [] 0)) =
    Ok [mkTodo 1 [97] false]) by (vm_compute; reflexivity).
  assert (H2 : Forall (fun u => id u <> 2) [mkTodo 1 [97] false]) by (repeat constructor; cbn [id]; lia).
  assert (H3 : digit_count 2 <= int_max_str_digits) by (vm_compute; discriminate).
  split; [exact H1|]. split; [exact H2|]. split; [exact H3|].
  exact (cli_done_not_found _ utf8_strict io_ok 2 _ _ H1 H2 H3).
Defined.


